(** * mortar-luigi: schema translation and single-file transfer

    A shallow embedding of [mortar/luigi/redshift.py] and
    [mortar/luigi/s3transfer.py].  Python values are modelled by small
    inductive types, dictionaries by [gmap], raised exceptions by an
    explicit [outcome] type, and the effects of the tasks (object store,
    file handles, attributes of [self], the heap of list objects) by
    explicit state passing. *)

From Stdlib Require Import ZArith String Ascii List Lia.
From stdpp Require Import base option list gmap strings pretty.

Open Scope string_scope.
Open Scope Z_scope.

(** ** Python exceptions and outcomes *)

(** A decoded JSON value, as [json.loads] builds it.  Objects are Python
    dictionaries keyed by strings.  Numbers are those that decode to a
    Python [int]; a number written with a fraction or an exponent
    decodes to a [float], and a document that holds one lies outside
    the model. *)
#[local] Set Warnings "-register-all".

Inductive json : Type :=
  | JNull
  | JBool (b : bool)
  | JInt (z : Z)
  | JStr (s : string)
  | JArr (items : list json)
  | JObj (members : gmap string json).

(** The exceptions the two modules can raise.  [PyException fmt arg]
    stands for [Exception(fmt % arg)]: the format string together with
    the value interpolated into it. *)
Inductive exn : Type :=
  | KeyError (key : string)
  | TypeError
  | AttributeError
  | ValueError
  | IndexError
  | IOError
  | NameError (name : string)
  | PyException (fmt : string) (arg : json).

Inductive outcome (A : Type) : Type :=
  | Ret (a : A)
  | Raise (e : exn).
Arguments Ret {A} a.
Arguments Raise {A} e.

(** Sequencing: an exception skips the rest. *)
#[global] Instance outcome_bind : MBind outcome := fun A B k m =>
  match m with
  | Ret a => k a
  | Raise e => Raise e
  end.

(** ** The Python string operations the translator uses *)

Module PyStr.

(** Put a character in front of the first piece of a split. *)
Definition cons_head (c : ascii) (l : list string) : list string :=
  match l with
  | x :: xs => String c x :: xs
  | [] => [String c ""]
  end.

(** [s.split(sep)] for a non-empty separator: matches are found left
    to right and do not overlap.  [skip] counts the characters of a
    match that are still to be passed over. *)
Fixpoint split_go (sep : string) (skip : nat) (s : string) : list string :=
  match s with
  | "" => [""]
  | String c s' =>
      match skip with
      | S k => split_go sep k s'
      | O =>
          if String.prefix sep s
          then "" :: split_go sep (String.length sep - 1) s'
          else cons_head c (split_go sep 0 s')
      end
  end.

Definition split (s sep : string) : list string := split_go sep 0 s.

(** [sep.join(l)]. *)
Definition join (sep : string) (l : list string) : string :=
  String.concat sep l.

(** [s.replace(old, new)] for a non-empty [old]: again left to right
    and without overlap. *)
Fixpoint replace_go (old new : string) (skip : nat) (s : string) : string :=
  match s with
  | "" => ""
  | String c s' =>
      match skip with
      | S k => replace_go old new k s'
      | O =>
          if String.prefix old s
          then new +:+ replace_go old new (String.length old - 1) s'
          else String c (replace_go old new 0 s')
      end
  end.

Definition replace (s old new : string) : string := replace_go old new 0 s.

(** Number of occurrences of a character. *)
Fixpoint count_char (c : ascii) (s : string) : nat :=
  match s with
  | "" => O
  | String d s' => ((if Ascii.eqb c d then 1 else 0) + count_char c s')%nat
  end.

(** [l[start:]]: a negative start counts from the end, and a start
    outside the list is clamped to it. *)
Definition slice_from {A} (start : Z) (l : list A) : list A :=
  let n := Z.of_nat (length l) in
  let i := if start <? 0 then Z.max 0 (start + n) else Z.min start n in
  drop (Z.to_nat i) l.

(** The last [k] elements of a list, in words. *)
Definition last_k {A} (k : nat) (l : list A) : list A :=
  drop (length l - k) l.

End PyStr.

(** ** Dynamic operations on decoded JSON values *)

(** [v[key]] for a string key. *)
Definition getitem (v : json) (key : string) : outcome json :=
  match v with
  | JObj m =>
      match m !! key with
      | Some x => Ret x
      | None => Raise (KeyError key)
      end
  | _ => Raise TypeError
  end.

(** The values a [for] loop over [v] binds.  A dictionary yields its keys
    and a string its characters. *)
Definition iterate (v : json) : outcome (list json) :=
  match v with
  | JArr items => Ret items
  | JObj m => Ret (JStr <$> (map_to_list m).*1)
  | JStr s => Ret ((fun c => JStr (String c "")) <$> list_ascii_of_string s)
  | _ => Raise TypeError
  end.

(** [v.split(sep)]: only strings have the method. *)
Definition call_split (v : json) (sep : string) : outcome (list string) :=
  match v with
  | JStr s => Ret (PyStr.split s sep)
  | _ => Raise AttributeError
  end.

(** ** redshift.py *)

(** PIG_TYPE_TO_REDSHIFT_TYPE, lines 88-98. *)
Definition PIG_TYPE_TO_REDSHIFT_TYPE : gmap Z string :=
  <[5 := "boolean"]> (
  <[10 := "integer"]> (
  <[15 := "bigint"]> (
  <[20 := "float8"]> (
  <[25 := "float8"]> (
  <[30 := "timestamp"]> (
  <[50 := "varchar(max)"]> (
  <[55 := "varchar(max)"]> (
  <[65 := "bigint"]> ∅)))))))).

(** [table[v]] on a dictionary with integer keys.  [True] and [False]
    hash and compare as 1 and 0; lists and dictionaries are unhashable. *)
Definition table_getitem (table : gmap Z string) (v : json) : outcome string :=
  match v with
  | JInt z =>
      match table !! z with
      | Some t => Ret t
      | None => Raise (KeyError (pretty z))
      end
  | JBool b =>
      match table !! Z.b2z b with
      | Some t => Ret t
      | None => Raise (KeyError (if b then "True" else "False"))
      end
  | JNull => Raise (KeyError "None")
  | JStr s => Raise (KeyError s)
  | JArr _ | JObj _ => Raise TypeError
  end.

Definition is_KeyError (e : exn) : bool :=
  match e with
  | KeyError _ => true
  | _ => false
  end.

(** A column definition: name and SQL type (or a key clause). *)
Definition column : Type := string * string.

(** Lines 115-116: the column name of a field name. *)
Definition column_name (split_name : list string) (alias_depth : Z) : string :=
  PyStr.join "_"
    (PyStr.slice_from
       (- Z.min (alias_depth + 1) (Z.of_nat (length split_name)))
       split_name).

Section Translator.

(** The table is read from the module's global at call time. *)
Variable table : gmap Z string.

(** Lines 115-118: the body of the [try]. *)
Definition try_body (f : json) (alias_depth : Z) : outcome column :=
  n ← getitem f "name";
  split_name ← call_split n "::";
  let name := column_name split_name alias_depth in
  ty ← getitem f "type";
  t ← table_getitem table ty;
  Ret (name, t).

(** Lines 119-120: the handler of [except KeyError]. *)
Definition except_KeyError (f : json) : outcome column :=
  ty ← getitem f "type";
  Raise (PyException "Unsupported Pig type: %s" ty).

(** Lines 114-120: one iteration of the loop. *)
Definition translate_field (f : json) (alias_depth : Z) : outcome column :=
  match try_body f alias_depth with
  | Ret c => Ret c
  | Raise e => if is_KeyError e then except_KeyError f else Raise e
  end.

(** Lines 112-122: the loop, with [result] as the accumulator. *)
Fixpoint translate_loop (fields : list json) (alias_depth : Z)
    (result : list column) : outcome (list column) :=
  match fields with
  | [] => Ret result
  | f :: rest =>
      c ← translate_field f alias_depth;
      translate_loop rest alias_depth (result ++ [c])
  end.

(** Lines 110-122: everything after the document is decoded. *)
Definition column_definitions_of_json (json_schema : json)
    (alias_depth : Z) : outcome (list column) :=
  fields ← getitem json_schema "fields";
  fs ← iterate fields;
  translate_loop fs alias_depth [].

(** [json.loads] is the standard library's decoder. *)
Variable json_loads : string -> outcome json.

(** get_column_definitions_from_pig_schema, lines 100-122. *)
Definition get_column_definitions_from_pig_schema (schema : string)
    (alias_depth : Z) : outcome (list column) :=
  json_schema ← json_loads schema;
  column_definitions_of_json json_schema alias_depth.

End Translator.

(** What [fmt % arg] prints for one [%s] and a scalar argument. *)
Definition str_of_scalar (v : json) : option string :=
  match v with
  | JNull => Some "None"
  | JBool b => Some (if b then "True" else "False")
  | JInt z => Some (pretty z)
  | JStr s => Some s
  | JArr _ | JObj _ => None
  end.

Definition exception_message (e : exn) : option string :=
  match e with
  | PyException fmt arg =>
      s ← str_of_scalar arg; Some (PyStr.replace fmt "%s" s)
  | _ => None
  end.

(** *** CopyPigOutputToRedshiftTask *)

(** The names bound at module level in redshift.py: its imports, the
    logger, the class, the table and the function. *)
Definition module_globals : list string :=
  ["abc"; "json"; "logging"; "luigi"; "redshift"; "S3Client"; "logger";
   "CopyPigOutputToRedshiftTask"; "PIG_TYPE_TO_REDSHIFT_TYPE";
   "get_column_definitions_from_pig_schema"].

(** Evaluating a bare name inside a method: a name that is neither local
    nor bound in the module (nor a builtin) raises NameError.  A bound
    name evaluates to its object, here identified by the name. *)
Definition load_global (name : string) : outcome json :=
  if bool_decide (name ∈ module_globals) then Ret (JStr name)
  else Raise (NameError name).

(** The attributes of the task that [_set_columns] reads and writes. *)
Record task : Type := {
  pig_alias_depth : Z;
  s3_schema_path : string;
  table_keys : list column;
  columns : list column
}.

Definition set_task_columns (self : task) (cols : list column) : task :=
  {| pig_alias_depth := pig_alias_depth self;
     s3_schema_path := s3_schema_path self;
     table_keys := table_keys self;
     columns := cols |}.

Section CopyPigOutputToRedshiftTask.

Variable json_loads : string -> outcome json.

(** The object store: the contents of every key that exists. *)
Variable s3 : gmap string string.

(** [S3Client().exists(path)]. *)
Definition s3_exists (p : string) : bool := bool_decide (is_Some (s3 !! p)).

(** [S3Client().get_key(path).get_contents_as_string()]; [get_key]
    gives [None] for a key that does not exist. *)
Definition s3_get_contents (p : string) : outcome string :=
  match s3 !! p with
  | Some contents => Ret contents
  | None => Raise AttributeError
  end.

(** _read_schema_file, lines 76-84.  The message of line 79 is built
    from the bare name [s3_schema_path], not from the method of [self].
    The calls of [logger.info] do not bear on the result and are left
    out. *)
Definition _read_schema_file (self : task) : outcome string :=
  if negb (s3_exists (s3_schema_path self)) then
    v ← load_global "s3_schema_path";
    Raise (PyException
             "No schema file located at %s.  Can not set Redshift columns." v)
  else
    s3_get_contents (s3_schema_path self).

(** _set_columns, lines 69-74: the outcome and the task afterwards. *)
Definition _set_columns (self : task) : outcome unit * task :=
  match _read_schema_file self with
  | Raise e => (Raise e, self)
  | Ret pig_schema =>
      match get_column_definitions_from_pig_schema
              PIG_TYPE_TO_REDSHIFT_TYPE json_loads pig_schema
              (pig_alias_depth self) with
      | Raise e => (Raise e, self)
      | Ret redshift_schema =>
          let redshift_schema := (redshift_schema ++ table_keys self)%list in
          (Ret tt, set_task_columns self redshift_schema)
      end
  end.

End CopyPigOutputToRedshiftTask.

(** *** The translator over the interpreter's store

    The same function with the state it could touch made explicit: the
    dictionary object bound to the module global, and the heap of list
    objects, where [result = []] allocates and [append] mutates. *)
Module Store.

Record state : Type := {
  global_table : gmap Z string;
  heap : gmap nat (list column)
}.

Definition St (A : Type) : Type := state -> outcome A * state.

Definition ret {A} (a : A) : St A := fun st => (Ret a, st).

Definition bind {A B} (m : St A) (k : A -> St B) : St B := fun st =>
  match m st with
  | (Ret a, st') => k a st'
  | (Raise e, st') => (Raise e, st')
  end.

Definition lift {A} (o : outcome A) : St A := fun st => (o, st).

(** Reading the global [PIG_TYPE_TO_REDSHIFT_TYPE]. *)
Definition load_table : St (gmap Z string) := fun st =>
  (Ret (global_table st), st).

(** [[]]: a new list object at an unused address. *)
Definition new_list : St nat := fun st =>
  let l := fresh (dom (heap st)) in
  (Ret l, {| global_table := global_table st;
             heap := <[l := []]> (heap st) |}).

(** [result.append(c)]. *)
Definition list_append (l : nat) (c : column) : St unit := fun st =>
  match heap st !! l with
  | Some cs =>
      (Ret tt, {| global_table := global_table st;
                  heap := <[l := (cs ++ [c])%list]> (heap st) |})
  | None => (Raise AttributeError, st)
  end.

Fixpoint translate_loop (fields : list json) (alias_depth : Z)
    (result : nat) : St unit :=
  match fields with
  | [] => ret tt
  | f :: rest =>
      bind load_table (fun table =>
      bind (lift (translate_field table f alias_depth)) (fun c =>
      bind (list_append result c) (fun _ =>
      translate_loop rest alias_depth result)))
  end.

Definition get_column_definitions_from_pig_schema
    (json_loads : string -> outcome json) (schema : string)
    (alias_depth : Z) : St nat :=
  bind (lift (json_loads schema)) (fun json_schema =>
  bind (lift (getitem json_schema "fields")) (fun fields =>
  bind new_list (fun result =>
  bind (lift (iterate fields)) (fun fs =>
  bind (translate_loop fs alias_depth result) (fun _ =>
  ret result))))).

(** What the caller sees: the contents of the returned list, or the
    exception. *)
Definition observe (r : outcome nat * state) : outcome (option (list column)) :=
  match r with
  | (Ret l, st) => Ret (heap st !! l)
  | (Raise e, _) => Raise e
  end.

(** Every object that existed before is unchanged. *)
Definition preserved (st st' : state) : Prop :=
  global_table st' = global_table st /\
  forall l, is_Some (heap st !! l) -> heap st' !! l = heap st !! l.

End Store.

(** ** s3transfer.py *)

Module Transfer.

Section Task.

(** Everything outside the interpreter that targets act on: the
    local disk and the object store. *)
Context {World : Type}.

(** A statement: an outcome and the world it leaves.  The effects
    made before an exception stay. *)
Definition IO (A : Type) : Type := World -> outcome A * World.

Definition ret {A} (a : A) : IO A := fun w => (Ret a, w).

Definition raise {A} (e : exn) : IO A := fun w => (Raise e, w).

Definition bind {A B} (m : IO A) (k : A -> IO B) : IO B := fun w =>
  match m w with
  | (Ret a, w') => k a w'
  | (Raise e, w') => (Raise e, w')
  end.

(** [try: body / except: handler], a bare [except]. *)
Definition try_except {A} (body handler : IO A) : IO A := fun w =>
  match body w with
  | (Ret a, w') => (Ret a, w')
  | (Raise _, w') => handler w'
  end.

(** A file object as [open] returns it. *)
Record File : Type := {
  read : IO string;
  write : string -> IO unit;
  close : IO unit
}.

Inductive mode : Type := ModeR | ModeW.

(** The interface of luigi's targets that the task uses. *)
Record Target : Type := {
  path : string;
  exists_ : World -> bool;
  open : mode -> IO File;
  remove : IO unit
}.

(** The objects a method is called on in [run]. *)
Inductive pyobj : Type :=
  | PyList (items : list Target)
  | PyTarget (t : Target).

(** [o.exists(args)]: a list has no such attribute, and the lookup
    of the attribute comes before the arguments are used. *)
Definition call_exists (o : pyobj) (args : list string) : IO bool :=
  match o with
  | PyList _ => raise AttributeError
  | PyTarget t =>
      match args with
      | [] => fun w => (Ret (exists_ t w), w)
      | _ => raise TypeError
      end
  end.

(** [o.remove()]: [list.remove] wants one argument. *)
Definition call_remove (o : pyobj) : IO unit :=
  match o with
  | PyList _ => raise TypeError
  | PyTarget t => remove t
  end.

(** The abstract methods, as a subclass defines them. *)
Variable input_target : Target.
Variable output_target : Target.

(** output, lines 24-25. *)
Definition output : list Target := [output_target].

(** Lines 38-41: the body of the [try]. *)
Definition copy_step : IO unit :=
  bind (open input_target ModeR) (fun r =>
  bind (open output_target ModeW) (fun w =>
  bind (read r) (fun data =>
  bind (write w data) (fun _ =>
  close w)))).

(** Lines 43-44: the handler. *)
Definition cleanup : IO unit :=
  bind (call_exists (PyList output) [path output_target]) (fun b =>
  if b then call_remove (PyList output) else ret tt).

(** S3TransferTask.run, lines 35-44. *)
Definition run : IO unit :=
  match output !! 0%nat with
  | None => raise IndexError
  | Some t => fun w =>
      if negb (exists_ t w) then try_except copy_step cleanup w
      else (Ret tt, w)
  end.

End Task.

Arguments IO : clear implicits.
Arguments File : clear implicits.
Arguments Target : clear implicits.

End Transfer.

(** *** A store written in place

    Targets whose [open('w')] creates the file at its final path and
    whose [write] appends to it.  The medium accepts [quota] more
    characters, and every operation is recorded. *)
Module DirectStore.

Import Transfer.

Inductive event : Type :=
  | EvOpen (p : string) (m : mode)
  | EvRead (p : string) (n : nat)
  | EvWrite (p : string) (n : nat)
  | EvClose (p : string)
  | EvRemove (p : string).

Record store : Type := {
  files : gmap string string;
  quota : option nat;
  trace : list event
}.

Definition log (e : event) (st : store) : store :=
  {| files := files st; quota := quota st; trace := (trace st ++ [e])%list |}.

Definition set_files (fs : gmap string string) (st : store) : store :=
  {| files := fs; quota := quota st; trace := trace st |}.

Definition contents (p : string) (st : store) : string :=
  default "" (files st !! p).

Definition take_string (n : nat) (s : string) : string :=
  string_of_list_ascii (take n (list_ascii_of_string s)).

Definition do_read (p : string) : IO store string := fun st =>
  let data := contents p st in
  (Ret data, log (EvRead p (String.length data)) st).

Definition do_write (p : string) (data : string) : IO store unit := fun st =>
  let n := String.length data in
  match quota st with
  | Some q =>
      if (n <=? q)%nat then
        (Ret tt,
         log (EvWrite p n)
           {| files := <[p := contents p st +:+ data]> (files st);
              quota := Some (q - n)%nat;
              trace := trace st |})
      else
        (Raise IOError,
         log (EvWrite p q)
           {| files := <[p := contents p st +:+ take_string q data]> (files st);
              quota := Some O;
              trace := trace st |})
  | None =>
      (Ret tt, log (EvWrite p n) (set_files (<[p := contents p st +:+ data]> (files st)) st))
  end.

Definition do_close (p : string) : IO store unit := fun st =>
  (Ret tt, log (EvClose p) st).

Definition file_at (p : string) : File store :=
  {| read := do_read p; write := do_write p; close := do_close p |}.

Definition do_open (p : string) (m : mode) : IO store (File store) := fun st =>
  match m with
  | ModeR =>
      match files st !! p with
      | Some _ => (Ret (file_at p), log (EvOpen p ModeR) st)
      | None => (Raise IOError, st)
      end
  | ModeW =>
      (Ret (file_at p), log (EvOpen p ModeW) (set_files (<[p := ""]> (files st)) st))
  end.

Definition do_remove (p : string) : IO store unit := fun st =>
  (Ret tt, log (EvRemove p) (set_files (delete p (files st)) st)).

Definition target (p : string) : Target store :=
  {| path := p;
     exists_ := fun st => bool_decide (is_Some (files st !! p));
     open := do_open p;
     remove := do_remove p |}.

(** A store in which the destination exists already. *)
Definition store_with_both : store :=
  {| files := <["/out/f" := "old"]> (<["/in/f" := "hello"]> ∅);
     quota := None;
     trace := [] |}.

(** A medium that takes two more characters. *)
Definition store_nearly_full : store :=
  {| files := <["/in/f" := "hello"]> ∅;
     quota := Some 2%nat;
     trace := [] |}.

End DirectStore.

(** *** The cached client and the two directions of transfer *)

(** An S3 client, as [S3Client(key_id, secret)] builds it. *)
Record s3_client : Type := {
  aws_access_key_id : string;
  aws_secret_access_key : string
}.

(** get_s3_client, lines 19-22.  [client] is the attribute of [self],
    absent until the first call; [config_get section option] is
    [luigi.configuration.get_config().get].  The outcome comes with the
    attribute afterwards. *)
Definition get_s3_client (config_get : string -> string -> outcome string)
    (client : option s3_client) : outcome s3_client * option s3_client :=
  match client with
  | Some c => (Ret c, Some c)
  | None =>
      match config_get "s3" "aws_s3_access_key_id" with
      | Raise e => (Raise e, None)
      | Ret key_id =>
          match config_get "s3" "aws_s3_secret_access_key" with
          | Raise e => (Raise e, None)
          | Ret secret =>
              let c := {| aws_access_key_id := key_id;
                          aws_secret_access_key := secret |} in
              (Ret c, Some c)
          end
      end
  end.

(** The local disk and the bucket, each a store written in place. *)
Module Places.

Import Transfer DirectStore.

Inductive place : Type := Disk | Bucket.

Record world : Type := {
  disk : store;
  bucket : store
}.

Definition at_place (pl : place) (w : world) : store :=
  match pl with
  | Disk => disk w
  | Bucket => bucket w
  end.

Definition put_place (pl : place) (s : store) (w : world) : world :=
  match pl with
  | Disk => {| disk := s; bucket := bucket w |}
  | Bucket => {| disk := disk w; bucket := s |}
  end.

(** An operation of one store, run in the world. *)
Definition on {A} (pl : place) (m : IO store A) : IO world A := fun w =>
  match m (at_place pl w) with
  | (r, s) => (r, put_place pl s w)
  end.

Definition file_on (pl : place) (p : string) : File world :=
  {| read := on pl (do_read p);
     write := fun data => on pl (do_write p data);
     close := on pl (do_close p) |}.

Definition open_on (pl : place) (p : string) (m : mode) : IO world (File world) :=
  fun w =>
    match do_open p m (at_place pl w) with
    | (Ret _, s) => (Ret (file_on pl p), put_place pl s w)
    | (Raise e, s) => (Raise e, put_place pl s w)
    end.

Definition target_on (pl : place) (p : string) : Target world :=
  {| path := p;
     exists_ := fun w => exists_ (target p) (at_place pl w);
     open := open_on pl p;
     remove := on pl (do_remove p) |}.

End Places.

(** *** S3TransferTask with its method calls

    [Transfer.run] takes the two targets as given and the check of
    line 36 as a test of the world.  Here [input_target()] and
    [output_target()] are the method calls of the source, which may
    raise and may change the world, and [exists()] is a call that may
    raise as well. *)
Module Task.

Section Methods.

Context {World : Type}.

(** The interface of a target, every method a call. *)
Record target : Type := {
  path : string;
  exists_ : Transfer.IO World bool;
  open : Transfer.mode -> Transfer.IO World (Transfer.File World);
  remove : Transfer.IO World unit
}.

Inductive pyobj : Type :=
  | PyList (items : list target)
  | PyTarget (t : target).

(** [o.exists]: the bound method, which a list does not have.  The
    arguments are evaluated after the attribute is found. *)
Definition getattr_exists (o : pyobj)
    : Transfer.IO World (list string -> Transfer.IO World bool) :=
  match o with
  | PyList _ => Transfer.raise AttributeError
  | PyTarget t =>
      Transfer.ret (fun args =>
        match args with
        | [] => exists_ t
        | _ => Transfer.raise TypeError
        end)
  end.

(** [o.remove()]: [list.remove] wants one argument. *)
Definition call_remove (o : pyobj) : Transfer.IO World unit :=
  match o with
  | PyList _ => Transfer.raise TypeError
  | PyTarget t => remove t
  end.

(** The abstract methods, as a subclass defines them. *)
Variable input_target : Transfer.IO World target.
Variable output_target : Transfer.IO World target.

(** output, lines 24-25. *)
Definition output : Transfer.IO World (list target) :=
  Transfer.bind output_target (fun t => Transfer.ret [t]).

(** Lines 38-41: the body of the [try]. *)
Definition copy_step : Transfer.IO World unit :=
  Transfer.bind input_target (fun i =>
  Transfer.bind (open i Transfer.ModeR) (fun r =>
  Transfer.bind output_target (fun o =>
  Transfer.bind (open o Transfer.ModeW) (fun w =>
  Transfer.bind (Transfer.read r) (fun data =>
  Transfer.bind (Transfer.write w data) (fun _ =>
  Transfer.close w)))))).

(** Lines 43-44: the handler. *)
Definition cleanup : Transfer.IO World unit :=
  Transfer.bind output (fun outs =>
  Transfer.bind (getattr_exists (PyList outs)) (fun exists_method =>
  Transfer.bind output_target (fun t =>
  Transfer.bind (exists_method [path t]) (fun b =>
  if b then Transfer.bind output (fun outs' => call_remove (PyList outs'))
  else Transfer.ret tt)))).

(** S3TransferTask.run, lines 35-44. *)
Definition run : Transfer.IO World unit :=
  Transfer.bind output (fun outs =>
  match outs !! 0%nat with
  | None => Transfer.raise IndexError
  | Some t =>
      Transfer.bind (exists_ t) (fun b =>
      if negb b then Transfer.try_except copy_step cleanup
      else Transfer.ret tt)
  end).

End Methods.

Arguments target : clear implicits.

(** A target whose check is a test of the world. *)
Definition of_target {World : Type} (t : Transfer.Target World) : target World :=
  {| path := Transfer.path t;
     exists_ := fun w => (Ret (Transfer.exists_ t w), w);
     open := Transfer.open t;
     remove := Transfer.remove t |}.

End Task.

(** The parameters of S3TransferTask, lines 15-17. *)
Record transfer_task : Type := {
  s3_path : string;
  local_path : string;
  file_name : string
}.

(** What a run of a task object works on: the two media and the
    [client] attribute of the object. *)
Record task_world : Type := {
  places : Places.world;
  self_client : option s3_client
}.

(** An operation on the media, which leaves the attribute alone. *)
Definition in_places {A} (m : Transfer.IO Places.world A) : Transfer.IO task_world A :=
  fun s =>
    match m (places s) with
    | (r, w) => (r, {| places := w; self_client := self_client s |})
    end.

Definition file_in_places (f : Transfer.File Places.world) : Transfer.File task_world :=
  {| Transfer.read := in_places (Transfer.read f);
     Transfer.write := fun data => in_places (Transfer.write f data);
     Transfer.close := in_places (Transfer.close f) |}.

Definition target_in_places (t : Transfer.Target Places.world) : Task.target task_world :=
  {| Task.path := Transfer.path t;
     Task.exists_ := fun s => (Ret (Transfer.exists_ t (places s)), s);
     Task.open := fun m s =>
       match Transfer.open t m (places s) with
       | (Ret f, w) =>
           (Ret (file_in_places f), {| places := w; self_client := self_client s |})
       | (Raise e, w) =>
           (Raise e, {| places := w; self_client := self_client s |})
       end;
     Task.remove := in_places (Transfer.remove t) |}.

(** Stand-ins for [LocalTarget(path)] and [S3Target(path, client=c)]:
    files of the disk and objects of the bucket, written in place.  The
    bucket is the one the client reaches. *)
Definition disk_target (p : string) : Task.target task_world :=
  target_in_places (Places.target_on Places.Disk p).

Definition bucket_target (p : string) (client : s3_client) : Task.target task_world :=
  target_in_places (Places.target_on Places.Bucket p).

(** [self.get_s3_client()], on the attribute of the object. *)
Definition call_get_s3_client (config_get : string -> string -> outcome string)
    : Transfer.IO task_world s3_client :=
  fun s =>
    match get_s3_client config_get (self_client s) with
    | (r, client) => (r, {| places := places s; self_client := client |})
    end.

(** A method that returns the stand-in for [t] and leaves the media
    as they are. *)
Definition builds (m : Transfer.IO task_world (Task.target task_world))
    (t : Transfer.Target Places.world) : Prop :=
  forall s, exists client,
    m s = (Ret (target_in_places t), {| places := places s; self_client := client |}).

(** LocalToS3Task, lines 47-53. *)
Module LocalToS3Task.

Definition input_target (self : transfer_task) : Transfer.IO task_world (Task.target task_world) :=
  Transfer.ret (disk_target (local_path self +:+ "/" +:+ file_name self)).

Definition output_target (config_get : string -> string -> outcome string)
    (self : transfer_task) : Transfer.IO task_world (Task.target task_world) :=
  Transfer.bind (call_get_s3_client config_get) (fun client =>
  Transfer.ret (bucket_target (s3_path self +:+ "/" +:+ file_name self) client)).

Definition run (config_get : string -> string -> outcome string)
    (self : transfer_task) : Transfer.IO task_world unit :=
  Task.run (input_target self) (output_target config_get self).

End LocalToS3Task.

(** S3ToLocalTask, lines 56-62. *)
Module S3ToLocalTask.

Definition output_target (self : transfer_task) : Transfer.IO task_world (Task.target task_world) :=
  Transfer.ret (disk_target (local_path self +:+ "/" +:+ file_name self)).

Definition input_target (config_get : string -> string -> outcome string)
    (self : transfer_task) : Transfer.IO task_world (Task.target task_world) :=
  Transfer.bind (call_get_s3_client config_get) (fun client =>
  Transfer.ret (bucket_target (s3_path self +:+ "/" +:+ file_name self) client)).

Definition run (config_get : string -> string -> outcome string)
    (self : transfer_task) : Transfer.IO task_world unit :=
  Task.run (input_target config_get self) (output_target self).

End S3ToLocalTask.

(** A configuration with both keys, and one without a section [s3]. *)
Definition example_config (section option : string) : outcome string :=
  if decide (section = "s3") then
    if decide (option = "aws_s3_access_key_id") then Ret "AKIA"
    else if decide (option = "aws_s3_secret_access_key") then Ret "secret"
    else Raise (PyException "No option %s" (JStr option))
  else Raise (PyException "No section %s" (JStr section)).

Definition empty_config (section option : string) : outcome string :=
  Raise (PyException "No section %s" (JStr section)).

(** An upload and the download of the same object into another
    directory, and a world with the one local file. *)
Definition example_upload : transfer_task :=
  {| s3_path := "s3://bucket/data"; local_path := "/tmp/in"; file_name := "f.csv" |}.

Definition example_download : transfer_task :=
  {| s3_path := "s3://bucket/data"; local_path := "/tmp/out"; file_name := "f.csv" |}.

Definition example_world : Places.world :=
  {| Places.disk :=
       {| DirectStore.files := <["/tmp/in/f.csv" := "a,b"]> ∅;
          DirectStore.quota := None;
          DirectStore.trace := [] |};
     Places.bucket :=
       {| DirectStore.files := ∅;
          DirectStore.quota := None;
          DirectStore.trace := [] |} |}.

(** *** Schema documents *)

(** A descriptor with a string name and an integer type code. *)
Definition descriptor (f : json) (name : string) (code : Z) : Prop :=
  exists m, f = JObj m /\ m !! "name" = Some (JStr name)
            /\ m !! "type" = Some (JInt code).

(** A descriptor as the schema format defines it. *)
Definition well_formed (f : json) : Prop :=
  exists name code, descriptor f name code.

(** A descriptor whose type code the table translates. *)
Definition translatable (table : gmap Z string) (f : json) : Prop :=
  exists name code t, descriptor f name code /\ table !! code = Some t.

(** The descriptor [{"name": n, "type": t}]. *)
Definition field_of (n : string) (t : Z) : json :=
  JObj (<["name" := JStr n]> (<["type" := JInt t]> ∅)).

(** The descriptor [{"type": t}], which has no name. *)
Definition nameless_field (t : Z) : json :=
  JObj (<["type" := JInt t]> ∅).

(** The document [{"fields": fs}]. *)
Definition document (fs : list json) : gmap string json :=
  <["fields" := JArr fs]> ∅.

(** A decoder that yields one document. *)
Definition loads_as (doc : json) : string -> outcome json :=
  fun _ => Ret doc.

(** A task with the default alias depth and one key clause. *)
Definition example_task : task :=
  {| pig_alias_depth := 1;
     s3_schema_path := "s3://bucket/out/.pig_schema";
     table_keys := [("PRIMARY KEY", "(id)")];
     columns := [] |}.

(** ** Properties of the string operations *)

Module PyStrFacts.

Import PyStr.

Lemma split_go_cons sep k s : exists x xs, split_go sep k s = x :: xs.
Proof.
  revert k. induction s as [|c s IH]; intros k; cbn [split_go].
  - eexists _, _; reflexivity.
  - destruct k as [|k]; [|apply IH].
    destruct (String.prefix sep (String c s)); [eexists _, _; reflexivity|].
    destruct (IH O) as (x & xs & ->). eexists _, _; reflexivity.
Qed.

Lemma concat_cons_head sep c l :
  l <> [] -> String.concat sep (cons_head c l) = String c (String.concat sep l).
Proof. intros Hl. destruct l as [|x [|y ys]]; done. Qed.

Lemma concat_empty_head sep x xs :
  String.concat sep ("" :: x :: xs) = sep +:+ String.concat sep (x :: xs).
Proof. done. Qed.

(** Joining the pieces of a split with [new] is replacing the
    separator by [new]. *)
Lemma join_split_go sep new k s :
  join new (split_go sep k s) = replace_go sep new k s.
Proof.
  unfold join. revert k. induction s as [|c s IH]; intros k; [done|].
  cbn [split_go replace_go]. destruct k as [|k]; [|apply IH].
  destruct (String.prefix sep (String c s)).
  - destruct (split_go_cons sep (String.length sep - 1) s) as (x & xs & E).
    rewrite <- IH, E. apply concat_empty_head.
  - rewrite concat_cons_head, IH; [done|].
    destruct (split_go_cons sep 0 s) as (x & xs & ->). done.
Qed.

Lemma join_split s sep new : join new (split s sep) = replace s sep new.
Proof. apply join_split_go. Qed.

Lemma count_char_app c s t :
  count_char c (s +:+ t) = (count_char c s + count_char c t)%nat.
Proof.
  induction s as [|d s IH]; [done|].
  change (String d s +:+ t) with (String d (s +:+ t)).
  simpl. rewrite IH. lia.
Qed.

Lemma prefix_single c d s :
  String.prefix (String c "") (String d s) = Ascii.eqb c d.
Proof.
  simpl. destruct (ascii_dec c d) as [->|Hne].
  - rewrite Ascii.eqb_refl. by destruct s.
  - symmetry. by apply Ascii.eqb_neq.
Qed.

Lemma length_cons_head c l : l <> [] -> length (cons_head c l) = length l.
Proof. intros Hl. by destruct l. Qed.

(** Splitting on one character gives one piece more than there are
    occurrences of it. *)
Lemma length_split_char c s :
  length (split s (String c "")) = S (count_char c s).
Proof.
  unfold split. induction s as [|d s IH]; [done|].
  cbn [split_go]. rewrite prefix_single. cbn [count_char String.length Nat.sub].
  destruct (Ascii.eqb c d).
  - cbn [length]. rewrite IH. lia.
  - rewrite length_cons_head, IH; [lia|].
    destruct (split_go_cons (String c "") 0 s) as (x & xs & ->). done.
Qed.

(** The pieces of a split keep no more occurrences of a character
    than the string has. *)
Lemma count_split_go c sep k s :
  (sum_list_with (count_char c) (split_go sep k s) <= count_char c s)%nat.
Proof.
  revert k. induction s as [|d s IH]; intros k; [done|].
  cbn [split_go count_char]. destruct k as [|k].
  - destruct (String.prefix sep (String d s)).
    + cbn [sum_list_with count_char]. specialize (IH (String.length sep - 1)%nat). lia.
    + specialize (IH O).
      destruct (split_go_cons sep 0 s) as (x & xs & E). rewrite E in *.
      cbn [cons_head sum_list_with count_char] in *. lia.
  - specialize (IH k). lia.
Qed.

Lemma count_drop c n (l : list string) :
  (sum_list_with (count_char c) (drop n l) <= sum_list_with (count_char c) l)%nat.
Proof.
  rewrite <- (take_drop n l) at 2. rewrite sum_list_with_app. lia.
Qed.

Lemma count_slice_from c start (l : list string) :
  (sum_list_with (count_char c) (slice_from start l)
   <= sum_list_with (count_char c) l)%nat.
Proof. apply count_drop. Qed.

Lemma count_join c (l : list string) :
  count_char c (join (String c "") l)
  = (length l - 1 + sum_list_with (count_char c) l)%nat.
Proof.
  unfold join. induction l as [|x [|y ys] IH]; [done|simpl; lia|].
  change (String.concat (String c "") (x :: y :: ys))
    with (x +:+ String c "" +:+ String.concat (String c "") (y :: ys)).
  rewrite !count_char_app, IH.
  cbn [count_char sum_list_with length]. rewrite Ascii.eqb_refl. lia.
Qed.

(** On the slices the translator takes, Python's negative index
    selects the last [k] elements. *)
Lemma slice_from_last_k {A} (l : list A) (d : Z) :
  0 <= d ->
  slice_from (- Z.min (d + 1) (Z.of_nat (length l))) l
  = last_k (Z.to_nat (Z.min (d + 1) (Z.of_nat (length l)))) l.
Proof.
  intros Hd. unfold slice_from, last_k.
  destruct l as [|a l]; [by rewrite !drop_nil|].
  set (n := length (a :: l)).
  assert (0 < Z.of_nat n) by (subst n; simpl; lia).
  destruct (Z.ltb_spec (- Z.min (d + 1) (Z.of_nat n)) 0); [|lia].
  f_equal. lia.
Qed.

Lemma length_slice_from {A} (l : list A) (d : Z) :
  0 <= d ->
  Z.of_nat (length (slice_from (- Z.min (d + 1) (Z.of_nat (length l))) l))
  = Z.min (d + 1) (Z.of_nat (length l)).
Proof.
  intros Hd. rewrite slice_from_last_k by done. unfold last_k.
  rewrite length_drop. lia.
Qed.

Lemma slice_from_all {A} (l : list A) (d : Z) :
  Z.of_nat (length l) - 1 <= d ->
  slice_from (- Z.min (d + 1) (Z.of_nat (length l))) l = l.
Proof.
  intros Hd. unfold slice_from.
  replace (Z.min (d + 1) (Z.of_nat (length l))) with (Z.of_nat (length l)) by lia.
  destruct (Z.ltb_spec (- Z.of_nat (length l)) 0).
  - replace (Z.to_nat _) with O by lia. done.
  - replace (Z.to_nat _) with O by lia. done.
Qed.

End PyStrFacts.

(** ** The schema translator *)

Section TranslatorFacts.

Import PyStr PyStrFacts.

Variable table : gmap Z string.

Lemma translate_field_known f name code t d :
  descriptor f name code -> table !! code = Some t ->
  translate_field table f d = Ret (column_name (split name "::") d, t).
Proof.
  intros (m & -> & Hn & Ht) Hc.
  unfold translate_field, try_body. cbn. rewrite Hn. cbn. rewrite Ht. cbn.
  by rewrite Hc.
Qed.

Lemma translate_field_unknown f name code d :
  descriptor f name code -> table !! code = None ->
  translate_field table f d
  = Raise (PyException "Unsupported Pig type: %s" (JInt code)).
Proof.
  intros (m & -> & Hn & Ht) Hc.
  unfold translate_field, try_body, except_KeyError.
  cbn. rewrite Hn. cbn. rewrite Ht. cbn. by rewrite Hc.
Qed.

Lemma translate_field_nameless m code d :
  m !! "name" = None -> m !! "type" = Some (JInt code) ->
  translate_field table (JObj m) d
  = Raise (PyException "Unsupported Pig type: %s" (JInt code)).
Proof.
  intros Hn Ht. unfold translate_field, try_body, except_KeyError.
  cbn. rewrite Hn. cbn. by rewrite Ht.
Qed.

(** The loop over translatable descriptors: one column per field, in
    the order of the fields, after what was accumulated. *)
Lemma translate_loop_translatable fs d acc :
  Forall (translatable table) fs ->
  exists cols,
    translate_loop table fs d acc = Ret (acc ++ cols)%list
    /\ Forall2 (fun f c => translate_field table f d = Ret c) fs cols.
Proof.
  intros Hfs. revert acc. induction Hfs as [|f fs Hf _ IH]; intros acc.
  - exists []. by rewrite app_nil_r.
  - destruct Hf as (name & code & t & Hd & Hc).
    pose proof (translate_field_known _ _ _ _ d Hd Hc) as E.
    destruct (IH (acc ++ [(column_name (split name "::") d, t)])%list)
      as (cols & Hl & H2).
    exists ((column_name (split name "::") d, t) :: cols). split.
    + cbn [translate_loop]. rewrite E. cbn.
      etrans; [exact Hl|]. by rewrite <- app_assoc.
    + by constructor.
Qed.

(** The loop stops at the first descriptor that fails. *)
Lemma translate_loop_stops pre f post d acc e :
  Forall (translatable table) pre ->
  translate_field table f d = Raise e ->
  translate_loop table (pre ++ f :: post) d acc = Raise e.
Proof.
  intros Hpre Hf. revert acc. induction Hpre as [|g pre Hg _ IH]; intros acc.
  - cbn. by rewrite Hf.
  - destruct Hg as (name & code & t & Hd & Hc).
    cbn [app translate_loop].
    rewrite (translate_field_known _ _ _ _ d Hd Hc). cbn. apply IH.
Qed.

(** A list of well-formed descriptors with an unknown code splits at
    the first of them. *)
Lemma first_unknown fs :
  Forall well_formed fs ->
  Exists (fun f => exists name code,
              descriptor f name code /\ table !! code = None) fs ->
  exists pre f post name code,
    fs = (pre ++ f :: post)%list /\ Forall (translatable table) pre
    /\ descriptor f name code /\ table !! code = None.
Proof.
  intros Hwf. induction Hwf as [|g fs Hg Hwf IH]; intros Hex.
  - inversion Hex.
  - destruct Hg as (name & code & Hd).
    destruct (table !! code) as [t|] eqn:Hc.
    + assert (Exists (fun f => exists name code,
                descriptor f name code /\ table !! code = None) fs) as Hex'.
      { inversion Hex as [? ? (n' & c' & Hd' & Hc')|]; subst; [|done].
        destruct Hd as (m & -> & Hn & Ht). destruct Hd' as (m' & [= <-] & Hn' & Ht').
        congruence. }
      destruct (IH Hex') as (pre & f & post & n' & c' & -> & Hpre & Hf & Hn).
      exists (g :: pre), f, post, n', c'. repeat split; try done.
      constructor; [|done]. by exists name, code, t.
    + exists [], g, fs, name, code. by repeat split.
Qed.

End TranslatorFacts.

Section TranslatorClaims.

Import PyStr PyStrFacts.

Lemma unsupported_message code :
  exception_message (PyException "Unsupported Pig type: %s" (JInt code))
  = Some ("Unsupported Pig type: " +:+ pretty code).
Proof.
  cbn [exception_message str_of_scalar mbind option_bind].
  unfold replace. f_equal.
  assert (forall s, s +:+ "" = s) as Hnil.
  { induction s as [|c s IH]; [done|].
    change (String c s +:+ "") with (String c (s +:+ "")). by rewrite IH. }
  cbn -[pretty append]. by rewrite Hnil.
Qed.

(** C1: for a field descriptor and a depth [d >= 0] the column name is
    the last [k = min (d + 1) segmentCount] segments of the name split
    on "::", joined with "_". *)
Theorem column_name_last_segments (f : json) (name : string) (code : Z)
    (t : string) (d : Z) :
  descriptor f name code -> PIG_TYPE_TO_REDSHIFT_TYPE !! code = Some t -> 0 <= d ->
  let segments := split name "::" in
  let k := Z.to_nat (Z.min (d + 1) (Z.of_nat (length segments))) in
  translate_field PIG_TYPE_TO_REDSHIFT_TYPE f d = Ret (join "_" (last_k k segments), t).
Proof.
  intros Hd Hc H0 segments k.
  rewrite (translate_field_known PIG_TYPE_TO_REDSHIFT_TYPE f name code t d Hd Hc).
  unfold column_name. by rewrite slice_from_last_k.
Qed.

(** C2: in a document of well-formed descriptors with an unknown type
    code, translation raises the exception that names an unknown code
    of the document, and returns no list. *)
Theorem unknown_type_aborts (json_loads : string -> outcome json)
    (schema : string) (d : Z) (m : gmap string json) (fields : list json) :
  json_loads schema = Ret (JObj m) ->
  m !! "fields" = Some (JArr fields) ->
  Forall well_formed fields ->
  Exists (fun f => exists name code,
              descriptor f name code /\ PIG_TYPE_TO_REDSHIFT_TYPE !! code = None) fields ->
  exists code,
    Exists (fun f => exists name, descriptor f name code) fields
    /\ PIG_TYPE_TO_REDSHIFT_TYPE !! code = None
    /\ get_column_definitions_from_pig_schema PIG_TYPE_TO_REDSHIFT_TYPE json_loads schema d
       = Raise (PyException "Unsupported Pig type: %s" (JInt code))
    /\ exception_message (PyException "Unsupported Pig type: %s" (JInt code))
       = Some ("Unsupported Pig type: " +:+ pretty code).
Proof.
  intros Hload Hfields Hwf Hex.
  destruct (first_unknown PIG_TYPE_TO_REDSHIFT_TYPE fields Hwf Hex)
    as (pre & f & post & name & code & -> & Hpre & Hd & Hc).
  exists code. split; [|split; [done|split; [|apply unsupported_message]]].
  - apply Exists_app. right. constructor. by exists name.
  - unfold get_column_definitions_from_pig_schema, column_definitions_of_json.
    rewrite Hload. cbn. rewrite Hfields. cbn.
    apply translate_loop_stops; [done|].
    by apply translate_field_unknown with name.
Qed.

(** C5: for a document of translatable descriptors [_set_columns]
    returns normally and leaves in [self.columns] one column per field,
    in the order of the fields, followed by the table keys unchanged;
    the other attributes of the task stay as they were. *)
Theorem columns_in_field_order (json_loads : string -> outcome json)
    (s3 : gmap string string) (self : task) (schema : string)
    (m : gmap string json) (fields : list json) :
  s3 !! s3_schema_path self = Some schema ->
  json_loads schema = Ret (JObj m) ->
  m !! "fields" = Some (JArr fields) ->
  Forall (translatable PIG_TYPE_TO_REDSHIFT_TYPE) fields ->
  exists cols,
    _set_columns json_loads s3 self
    = (Ret tt, set_task_columns self (cols ++ table_keys self))
    /\ columns (_set_columns json_loads s3 self).2 = (cols ++ table_keys self)%list
    /\ Forall2 (fun f c => translate_field PIG_TYPE_TO_REDSHIFT_TYPE f (pig_alias_depth self) = Ret c)
         fields cols
    /\ length (cols ++ table_keys self)
       = (length fields + length (table_keys self))%nat
    /\ drop (length fields) (cols ++ table_keys self) = table_keys self.
Proof.
  intros Hs3 Hload Hfields Hok.
  destruct (translate_loop_translatable PIG_TYPE_TO_REDSHIFT_TYPE fields (pig_alias_depth self) [] Hok)
    as (cols & Hloop & H2).
  exists cols. pose proof (Forall2_length _ _ _ H2) as Hlen.
  assert (_set_columns json_loads s3 self
          = (Ret tt, set_task_columns self (cols ++ table_keys self))) as Hset.
  { unfold _set_columns, _read_schema_file, s3_exists, s3_get_contents.
    rewrite Hs3. rewrite bool_decide_eq_true_2 by eauto. cbn [negb].
    unfold get_column_definitions_from_pig_schema, column_definitions_of_json.
    rewrite Hload. cbn. rewrite Hfields. cbn. by rewrite Hloop. }
  split; [exact Hset|split; [|split; [done|split]]].
  - rewrite Hset. reflexivity.
  - rewrite length_app. lia.
  - rewrite Hlen. by rewrite drop_app_length.
Qed.

(** C6, as stated, fails: no eight codes of the described shape make
    up the table, which has a ninth entry, 65. *)
Lemma type_table_not_eight_codes :
  ~ exists (b i l f1 f2 ts s1 s2 : Z) (tb ti tl tf tt tv : string),
      forall c ty,
        PIG_TYPE_TO_REDSHIFT_TYPE !! c = Some ty <->
        (c, ty) ∈ [(b, tb); (i, ti); (l, tl); (f1, tf); (f2, tf);
                   (ts, tt); (s1, tv); (s2, tv)].
Proof.
  intros (b & i & l & f1 & f2 & ts & s1 & s2 & tb & ti & tl & tf & tt & tv & H).
  assert (incl [5; 10; 15; 20; 25; 30; 50; 55; 65] [b; i; l; f1; f2; ts; s1; s2])
    as Hincl.
  { intros c Hc.
    assert (exists ty, PIG_TYPE_TO_REDSHIFT_TYPE !! c = Some ty) as [ty Hty].
    { simpl in Hc. destruct Hc as [<-|[<-|[<-|[<-|[<-|[<-|[<-|[<-|[<-|[]]]]]]]]]];
        eexists; reflexivity. }
    apply H in Hty. apply list_elem_of_In.
    change [b; i; l; f1; f2; ts; s1; s2]
      with ([(b, tb); (i, ti); (l, tl); (f1, tf); (f2, tf);
             (ts, tt); (s1, tv); (s2, tv)].*1).
    by apply (list_elem_of_fmap_2 fst) in Hty. }
  apply NoDup_incl_length in Hincl; [simpl in Hincl; lia|].
  apply NoDup_ListNoDup. by compute_done.
Qed.

(** C6, amended: the table is exactly these nine entries. *)
Theorem type_table_entries (c : Z) (ty : string) :
  PIG_TYPE_TO_REDSHIFT_TYPE !! c = Some ty <->
  (c, ty) ∈ [(5, "boolean"); (10, "integer"); (15, "bigint");
             (20, "float8"); (25, "float8"); (30, "timestamp");
             (50, "varchar(max)"); (55, "varchar(max)"); (65, "bigint")].
Proof.
  rewrite <- elem_of_map_to_list.
  assert (map_to_list PIG_TYPE_TO_REDSHIFT_TYPE ≡ₚ
          [(5, "boolean"); (10, "integer"); (15, "bigint");
           (20, "float8"); (25, "float8"); (30, "timestamp");
           (50, "varchar(max)"); (55, "varchar(max)"); (65, "bigint")]) as ->.
  { unfold PIG_TYPE_TO_REDSHIFT_TYPE.
    repeat (rewrite map_to_list_insert; [apply Permutation_cons; [done|] | by vm_compute]).
    by rewrite map_to_list_empty. }
  done.
Qed.

End TranslatorClaims.

Section TranslatorExamples.

Import PyStr PyStrFacts.

Lemma descriptor_field_of n t : descriptor (field_of n t) n t.
Proof. eexists. split; [reflexivity|]. split; reflexivity. Defined.

Lemma column_name_last_segments_witness :
  translate_field PIG_TYPE_TO_REDSHIFT_TYPE
    (field_of "table_2::table_1::my_alias" 10) 1
  = Ret ("table_1_my_alias", "integer").
Proof.
  exact (column_name_last_segments
           (field_of "table_2::table_1::my_alias" 10)
           "table_2::table_1::my_alias" 10 "integer" 1
           (descriptor_field_of _ _) eq_refl ltac:(lia)).
Defined.

Lemma unknown_type_aborts_witness :
  exists code,
    Exists (fun f => exists name, descriptor f name code)
      [field_of "t2::t1::id" 10; field_of "amount" 999]
    /\ PIG_TYPE_TO_REDSHIFT_TYPE !! code = None
    /\ get_column_definitions_from_pig_schema PIG_TYPE_TO_REDSHIFT_TYPE
         (loads_as (JObj (document [field_of "t2::t1::id" 10; field_of "amount" 999])))
         "schema" 1
       = Raise (PyException "Unsupported Pig type: %s" (JInt code))
    /\ exception_message (PyException "Unsupported Pig type: %s" (JInt code))
       = Some ("Unsupported Pig type: " +:+ pretty code).
Proof.
  apply (unknown_type_aborts
           (loads_as (JObj (document [field_of "t2::t1::id" 10; field_of "amount" 999])))
           "schema" 1
           (document [field_of "t2::t1::id" 10; field_of "amount" 999])
           [field_of "t2::t1::id" 10; field_of "amount" 999]).
  - reflexivity.
  - reflexivity.
  - repeat constructor; eexists _, _; apply descriptor_field_of.
  - right. left. exists "amount", 999. split; [apply descriptor_field_of|reflexivity].
Defined.

Lemma columns_in_field_order_witness :
  exists cols,
    _set_columns
      (loads_as (JObj (document [field_of "t2::t1::id" 10; field_of "amount" 25])))
      {[ "s3://bucket/out/.pig_schema" := "schema" ]} example_task
    = (Ret tt, set_task_columns example_task (cols ++ table_keys example_task))
    /\ columns (_set_columns
                  (loads_as (JObj (document [field_of "t2::t1::id" 10; field_of "amount" 25])))
                  {[ "s3://bucket/out/.pig_schema" := "schema" ]} example_task).2
       = (cols ++ table_keys example_task)%list
    /\ Forall2 (fun f c => translate_field PIG_TYPE_TO_REDSHIFT_TYPE f
                             (pig_alias_depth example_task) = Ret c)
         [field_of "t2::t1::id" 10; field_of "amount" 25] cols
    /\ length (cols ++ table_keys example_task)
       = (length [field_of "t2::t1::id" 10; field_of "amount" 25]
          + length (table_keys example_task))%nat
    /\ drop (length [field_of "t2::t1::id" 10; field_of "amount" 25])
         (cols ++ table_keys example_task) = table_keys example_task.
Proof.
  apply (columns_in_field_order
           (loads_as (JObj (document [field_of "t2::t1::id" 10; field_of "amount" 25])))
           {[ "s3://bucket/out/.pig_schema" := "schema" ]} example_task "schema"
           (document [field_of "t2::t1::id" 10; field_of "amount" 25])
           [field_of "t2::t1::id" 10; field_of "amount" 25]).
  - reflexivity.
  - reflexivity.
  - reflexivity.
  - repeat constructor.
    + exists "t2::t1::id", 10, "integer". split; [apply descriptor_field_of|reflexivity].
    + exists "amount", 25, "float8". split; [apply descriptor_field_of|reflexivity].
Defined.

(** The example of the specification, evaluated. *)
Example example_columns :
  _set_columns
    (loads_as (JObj (document [field_of "t2::t1::id" 10; field_of "amount" 25])))
    {[ "s3://bucket/out/.pig_schema" := "schema" ]} example_task
  = (Ret tt,
     set_task_columns example_task
       [("t1_id", "integer"); ("amount", "float8"); ("PRIMARY KEY", "(id)")]).
Proof. vm_compute. reflexivity. Qed.

(** C8, as stated, fails: the column name of the specification's own
    example, at depth 1, splits on "_" into four parts, not two. *)
Lemma column_name_parts_counterexample :
  ~ (Z.of_nat
       (length
          (split (column_name (split "table_2::table_1::my_alias" "::") 1) "_"))
     <= 1 + 1).
Proof. vm_compute. intros H. apply H. reflexivity. Qed.

(** C8, amended: for [d >= 0], when the field name has no "_" the
    column name splits on "_" into at most [d + 1] parts; and when
    [d >= segmentCount - 1] the column name is the field name with
    every "::" replaced by "_". *)
Theorem column_name_parts (name : string) (d : Z) :
  0 <= d ->
  (count_char "_" name = O ->
   Z.of_nat (length (split (column_name (split name "::") d) "_")) <= d + 1)
  /\ (Z.of_nat (length (split name "::")) - 1 <= d ->
      column_name (split name "::") d = replace name "::" "_").
Proof.
  intros Hd. split.
  - intros Hname. unfold column_name.
    set (kept := slice_from _ _).
    rewrite (length_split_char "_"), (count_join "_").
    assert (sum_list_with (count_char "_") kept = O) as ->.
    { pose proof (count_split_go "_" "::" 0 name) as H1.
      pose proof (count_slice_from "_"
                    (- Z.min (d + 1) (Z.of_nat (length (split name "::"))))
                    (split name "::")) as H2.
      unfold kept, split in *. lia. }
    pose proof (length_slice_from (split name "::") d Hd) as Hlen.
    fold kept in Hlen. lia.
  - intros Hall. unfold column_name. rewrite slice_from_all by done.
    apply join_split.
Qed.

Lemma column_name_parts_witness :
  (count_char "_" "a::b::c" = O ->
   Z.of_nat (length (split (column_name (split "a::b::c" "::") 2) "_")) <= 2 + 1)
  /\ (Z.of_nat (length (split "a::b::c" "::")) - 1 <= 2 ->
      column_name (split "a::b::c" "::") 2 = replace "a::b::c" "::" "_").
Proof. apply (column_name_parts "a::b::c" 2). lia. Defined.

(** C10, as stated, fails: a nameless descriptor with the known code 10
    after a descriptor with the unknown code 999 is never reached, and
    the exception does not name 10. *)
Lemma nameless_descriptor_counterexample :
  column_definitions_of_json PIG_TYPE_TO_REDSHIFT_TYPE
    (JObj (document [field_of "a" 999; nameless_field 10])) 1
  <> Raise (PyException "Unsupported Pig type: %s" (JInt 10)).
Proof. vm_compute. discriminate. Qed.

(** C10, amended: when every descriptor before it translates, a
    descriptor without a name whose type code is in the table makes the
    translation raise the unsupported-type exception naming that code. *)
Theorem nameless_descriptor_reported (pre post : list json)
    (m : gmap string json) (code : Z) (t : string) (d : Z) :
  Forall (translatable PIG_TYPE_TO_REDSHIFT_TYPE) pre ->
  m !! "name" = None ->
  m !! "type" = Some (JInt code) ->
  PIG_TYPE_TO_REDSHIFT_TYPE !! code = Some t ->
  column_definitions_of_json PIG_TYPE_TO_REDSHIFT_TYPE
    (JObj (document (pre ++ JObj m :: post))) d
  = Raise (PyException "Unsupported Pig type: %s" (JInt code)).
Proof.
  intros Hpre Hn Ht _. unfold column_definitions_of_json. cbn.
  apply translate_loop_stops; [done|]. by apply translate_field_nameless.
Qed.

Lemma nameless_descriptor_reported_witness :
  column_definitions_of_json PIG_TYPE_TO_REDSHIFT_TYPE
    (JObj (document ([field_of "a" 5] ++ nameless_field 10 :: [field_of "b" 999]))) 1
  = Raise (PyException "Unsupported Pig type: %s" (JInt 10)).
Proof.
  apply (nameless_descriptor_reported [field_of "a" 5] [field_of "b" 999]
           (<["type" := JInt 10]> ∅) 10 "integer" 1).
  - repeat constructor. exists "a", 5, "boolean".
    split; [apply descriptor_field_of|reflexivity].
  - reflexivity.
  - reflexivity.
  - reflexivity.
Defined.

End TranslatorExamples.

(** ** Reading the schema file *)

(** C7: when the schema location does not exist, [_set_columns] raises
    before any translation and sets no columns; what it raises is the
    NameError of the undefined name on line 79, not the exception that
    names the missing location. *)
Theorem missing_schema_raises_name_error (json_loads : string -> outcome json)
    (s3 : gmap string string) (self : task) :
  s3 !! s3_schema_path self = None ->
  _set_columns json_loads s3 self = (Raise (NameError "s3_schema_path"), self)
  /\ (_set_columns json_loads s3 self).1
     <> Raise (PyException
                 "No schema file located at %s.  Can not set Redshift columns."
                 (JStr (s3_schema_path self))).
Proof.
  intros Hmissing.
  assert (_set_columns json_loads s3 self
          = (Raise (NameError "s3_schema_path"), self)) as ->.
  { unfold _set_columns, _read_schema_file, s3_exists. rewrite Hmissing.
    rewrite bool_decide_eq_false_2; [done|]. by intros [x Hx]. }
  split; [done|]. cbn. discriminate.
Qed.

Lemma missing_schema_raises_name_error_witness :
  _set_columns (loads_as JNull) ∅ example_task
  = (Raise (NameError "s3_schema_path"), example_task)
  /\ (_set_columns (loads_as JNull) ∅ example_task).1
     <> Raise (PyException
                 "No schema file located at %s.  Can not set Redshift columns."
                 (JStr (s3_schema_path example_task))).
Proof.
  apply (missing_schema_raises_name_error (loads_as JNull) ∅ example_task).
  reflexivity.
Defined.

(** ** The translator over the interpreter's store *)

Module StoreFacts.

Lemma preserved_refl st : Store.preserved st st.
Proof. by split. Qed.

(** The loop writes to the list it was given and to nothing else, and
    computes what the accumulator loop computes. *)
Lemma translate_loop_spec fs d l st acc :
  Store.heap st !! l = Some acc ->
  exists st',
    Store.global_table st' = Store.global_table st
    /\ (forall l', l' <> l -> Store.heap st' !! l' = Store.heap st !! l')
    /\ Store.translate_loop fs d l st
       = (match translate_loop (Store.global_table st) fs d acc with
          | Ret _ => Ret tt
          | Raise e => Raise e
          end, st')
    /\ (forall cols,
          translate_loop (Store.global_table st) fs d acc = Ret cols ->
          Store.heap st' !! l = Some cols).
Proof.
  revert st acc. induction fs as [|f fs IH]; intros st acc Hl.
  - exists st. repeat split; try done. cbn. by intros cols [= <-].
  - cbn [Store.translate_loop translate_loop].
    unfold Store.bind at 1, Store.load_table. unfold Store.bind at 1, Store.lift.
    destruct (translate_field (Store.global_table st) f d) as [c|e]; cbn.
    + unfold Store.bind at 1, Store.list_append. rewrite Hl.
      set (st1 := {| Store.global_table := Store.global_table st;
                     Store.heap := <[l := (acc ++ [c])%list]> (Store.heap st) |}).
      destruct (IH st1 (acc ++ [c])%list) as (st' & Hg & Hother & Hres & Hcols).
      { apply lookup_insert_eq. }
      exists st'. split; [done|]. split; [|by split].
      intros l' Hne. rewrite (Hother l' Hne). by apply lookup_insert_ne.
    + exists st. by repeat split.
Qed.

(** The call leaves the global table and every list that existed
    alone, and the caller sees what the accumulator version returns. *)
Lemma call_spec json_loads schema d st :
  Store.preserved st (Store.get_column_definitions_from_pig_schema json_loads schema d st).2
  /\ Store.observe (Store.get_column_definitions_from_pig_schema json_loads schema d st)
     = match get_column_definitions_from_pig_schema
               (Store.global_table st) json_loads schema d with
       | Ret cols => Ret (Some cols)
       | Raise e => Raise e
       end.
Proof.
  unfold Store.get_column_definitions_from_pig_schema,
    get_column_definitions_from_pig_schema, column_definitions_of_json.
  unfold Store.bind at 1, Store.lift.
  destruct (json_loads schema) as [doc|e]; cbn; [|split; [apply preserved_refl|done]].
  unfold Store.bind at 1.
  destruct (getitem doc "fields") as [fields|e]; cbn;
    [|split; [apply preserved_refl|done]].
  unfold Store.bind at 1, Store.new_list.
  set (l := fresh (dom (Store.heap st))).
  set (st1 := {| Store.global_table := Store.global_table st; Store.heap := <[l := []]> (Store.heap st) |}).
  assert (Store.heap st !! l = None) as Hfresh.
  { apply not_elem_of_dom. apply is_fresh. }
  assert (Store.preserved st st1) as Hp1.
  { split; [done|]. intros l' [x Hx]. apply lookup_insert_ne. congruence. }
  destruct (iterate fields) as [fs|e]; cbn; [|by split].
  destruct (translate_loop_spec fs d l st1 []) as (st' & Hg & Hother & Hres & Hcols).
  { apply lookup_insert_eq. }
  change (Store.global_table st1) with (Store.global_table st) in Hres, Hcols.
  assert (Store.preserved st st') as Hp.
  { destruct Hp1 as [Hg1 Hh1]. split; [congruence|].
    intros l' Hl'. rewrite Hother; [by apply Hh1|].
    destruct Hl' as [x Hx]. congruence. }
  rewrite Hres.
  destruct (translate_loop (Store.global_table st) fs d []) as [cols|e]; cbn.
  - split; [done|]. by rewrite (Hcols cols eq_refl).
  - by split.
Qed.

End StoreFacts.

(** C9: the translator is deterministic and changes no state that
    existed before the call: the global table and every earlier list
    object are as they were, and a second call with the same schema and
    depth, made in the state the first one left, shows the caller the
    same columns or the same exception. *)
Theorem translator_pure (json_loads : string -> outcome json)
    (schema : string) (d : Z) (st : Store.state) :
  let first := Store.get_column_definitions_from_pig_schema json_loads schema d st in
  let second := Store.get_column_definitions_from_pig_schema json_loads schema d first.2 in
  Store.preserved st first.2
  /\ Store.preserved first.2 second.2
  /\ Store.observe second = Store.observe first
  /\ Store.observe first
     = match get_column_definitions_from_pig_schema
               (Store.global_table st) json_loads schema d with
       | Ret cols => Ret (Some cols)
       | Raise e => Raise e
       end.
Proof.
  intros first second.
  destruct (StoreFacts.call_spec json_loads schema d st) as [Hp1 Ho1].
  destruct (StoreFacts.call_spec json_loads schema d first.2) as [Hp2 Ho2].
  fold first in Hp1, Ho1. fold second in Hp2, Ho2.
  repeat split; try apply Hp1; try apply Hp2; [|done].
  rewrite Ho1, Ho2. destruct Hp1 as [-> _]. done.
Qed.

(** ** The single-file transfer *)

Module TransferFacts.

Import Transfer.

Section Run.

Context {World : Type}.
Variables input_target output_target : Target World.

(** The handler never reaches [remove]: it raises on the attribute
    lookup and leaves the world as the failed copy left it. *)
Lemma cleanup_raises (w : World) :
  cleanup output_target w = (Raise AttributeError, w).
Proof. reflexivity. Qed.

(** A failed copy step is followed by no cleanup. *)
Lemma run_copy_fails (w w' : World) (e : exn) :
  exists_ output_target w = false ->
  copy_step input_target output_target w = (Raise e, w') ->
  run input_target output_target w = (Raise AttributeError, w').
Proof.
  intros Habsent Hcopy. unfold run. cbn. rewrite Habsent. cbn.
  unfold try_except. rewrite Hcopy. apply cleanup_raises.
Qed.

Lemma run_copy_succeeds (w w' : World) :
  exists_ output_target w = false ->
  copy_step input_target output_target w = (Ret tt, w') ->
  run input_target output_target w = (Ret tt, w').
Proof.
  intros Habsent Hcopy. unfold run. cbn. rewrite Habsent. cbn.
  unfold try_except. by rewrite Hcopy.
Qed.

(** With the destination there, [run] does nothing. *)
Lemma run_skips (w : World) :
  exists_ output_target w = true ->
  run input_target output_target w = (Ret tt, w).
Proof. intros Hex. unfold run. cbn. by rewrite Hex. Qed.

(** [run] returns normally only by skipping or by a complete copy. *)
Lemma run_returns (w : World) :
  (run input_target output_target w).1 = Ret tt ->
  (exists_ output_target w = true /\ (run input_target output_target w).2 = w)
  \/ (exists_ output_target w = false
      /\ copy_step input_target output_target w
         = (Ret tt, (run input_target output_target w).2)).
Proof.
  unfold run. cbn. destruct (exists_ output_target w) eqn:Hex; cbn.
  - intros _. by left.
  - intros Hret. right. split; [done|]. unfold try_except in *.
    destruct (copy_step input_target output_target w) as [[[]|e] w']; cbn in *;
      [done|discriminate].
Qed.

End Run.

End TransferFacts.

(** C4: when the destination exists, [run] returns at once: it succeeds
    and the world, with its files and the record of every operation on
    them, is the one it started in; so does a second run after it. *)
Theorem run_existing_destination_noop {World : Type}
    (input_target output_target : Transfer.Target World) (w : World) :
  Transfer.exists_ output_target w = true ->
  Transfer.run input_target output_target w = (Ret tt, w)
  /\ Transfer.run input_target output_target
       (Transfer.run input_target output_target w).2 = (Ret tt, w).
Proof.
  intros Hex.
  pose proof (TransferFacts.run_skips input_target output_target w Hex) as Hrun.
  split; [done|]. by rewrite Hrun.
Qed.

Module DirectStoreFacts.

Import Transfer DirectStore.

Lemma exists_after_open_w p st f st' :
  do_open p ModeW st = (Ret f, st') -> is_Some (files st' !! p).
Proof. intros [= _ <-]. cbn. rewrite lookup_insert_eq. by eexists. Qed.

Lemma exists_after_write p data st r st' :
  is_Some (files st !! p) -> do_write p data st = (r, st') ->
  is_Some (files st' !! p).
Proof.
  intros _. unfold do_write.
  destruct (quota st) as [q|]; [destruct (String.length data <=? q)%nat|];
    intros [= _ <-]; cbn; rewrite lookup_insert_eq; by eexists.
Qed.

(** After a copy step that succeeded the destination exists. *)
Lemma copy_step_creates src dst st st' :
  copy_step (target src) (target dst) st = (Ret tt, st') ->
  exists_ (target dst) st' = true.
Proof.
  unfold copy_step, bind. cbn [open target].
  destruct (do_open src ModeR st) as [[r|e] st1] eqn:Hr; [|discriminate].
  assert (r = file_at src) as ->.
  { unfold do_open in Hr. destruct (files st !! src); by inversion Hr. }
  cbn [do_open]. cbn [read write close file_at do_read].
  destruct (do_write dst _ _) as [[[]|e] st2] eqn:Hw; [|discriminate].
  intros [= <-]. cbn. apply bool_decide_eq_true.
  eapply exists_after_write in Hw; [done|].
  cbn. rewrite lookup_insert_eq. by eexists.
Qed.

(** Running the transfer twice: after a first run that returned, the
    second run is a no-op. *)
Lemma run_twice src dst st :
  (run (target src) (target dst) st).1 = Ret tt ->
  run (target src) (target dst) (run (target src) (target dst) st).2
  = (Ret tt, (run (target src) (target dst) st).2).
Proof.
  intros Hret. apply TransferFacts.run_skips.
  destruct (TransferFacts.run_returns _ _ _ Hret) as [[Hex ->]|[_ Hcopy]]; [done|].
  by apply copy_step_creates in Hcopy.
Qed.

End DirectStoreFacts.

Lemma run_existing_destination_noop_witness :
  Transfer.run (DirectStore.target "/in/f") (DirectStore.target "/out/f")
    DirectStore.store_with_both
  = (Ret tt, DirectStore.store_with_both)
  /\ Transfer.run (DirectStore.target "/in/f") (DirectStore.target "/out/f")
       (Transfer.run (DirectStore.target "/in/f") (DirectStore.target "/out/f")
          DirectStore.store_with_both).2
     = (Ret tt, DirectStore.store_with_both).
Proof.
  apply (run_existing_destination_noop (DirectStore.target "/in/f")
           (DirectStore.target "/out/f") DirectStore.store_with_both).
  vm_compute. reflexivity.
Defined.

(** C3: a copy that fails after the destination was created is followed
    by no removal.  With room for two characters, copying "hello" raises
    out of [run] (the AttributeError of the handler), the destination
    exists and holds "he", and no removal was attempted. *)
Theorem failed_copy_leaves_partial_destination :
  let r := Transfer.run (DirectStore.target "/in/f") (DirectStore.target "/out/f")
             DirectStore.store_nearly_full in
  r.1 = Raise AttributeError
  /\ DirectStore.files r.2 !! "/out/f" = Some "he"
  /\ Transfer.exists_ (DirectStore.target "/out/f") r.2 = true
  /\ DirectStore.trace r.2
     = [DirectStore.EvOpen "/in/f" Transfer.ModeR;
        DirectStore.EvOpen "/out/f" Transfer.ModeW;
        DirectStore.EvRead "/in/f" 5;
        DirectStore.EvWrite "/out/f" 2].
Proof. vm_compute. repeat split. Qed.

(** ** Further properties of the translator *)

Module TranslatorMore.

Import PyStr PyStrFacts.

Lemma prefix_cons a s1 b s2 :
  String.prefix (String a s1) (String b s2)
  = if Ascii.eqb a b then String.prefix s1 s2 else false.
Proof.
  simpl. destruct (ascii_dec a b) as [->|Hne].
  - by rewrite Ascii.eqb_refl.
  - apply Ascii.eqb_neq in Hne. by rewrite Hne.
Qed.

Lemma split_go_no_colon name :
  count_char ":" name = O -> split_go "::" 0 name = [name].
Proof.
  induction name as [|c s IH]; [done|]. cbn [count_char split_go].
  rewrite prefix_cons.
  destruct (Ascii.eqb ":" c) eqn:Hc; [discriminate|]. intros Hs.
  by rewrite (IH Hs).
Qed.

Lemma column_name_negative segs d :
  d < 0 -> column_name segs d = join "_" (drop (Z.to_nat (- (d + 1))) segs).
Proof.
  intros Hd. unfold column_name, slice_from. f_equal.
  replace (Z.min (d + 1) (Z.of_nat (length segs))) with (d + 1) by lia.
  destruct (Z.ltb_spec (- (d + 1)) 0); [lia|].
  destruct (Z.le_gt_cases (- (d + 1)) (Z.of_nat (length segs))).
  - f_equal. lia.
  - rewrite !drop_ge; [done|lia|lia].
Qed.

(** A returned column comes from a descriptor with a string name and an
    integer code of the table: the booleans, which hash as 0 and 1,
    match no code. *)
Lemma translate_field_ret_inv f d c :
  translate_field PIG_TYPE_TO_REDSHIFT_TYPE f d = Ret c ->
  exists name code t,
    descriptor f name code /\ PIG_TYPE_TO_REDSHIFT_TYPE !! code = Some t
    /\ c = (column_name (split name "::") d, t).
Proof.
  unfold translate_field, try_body.
  destruct f as [| | | |items|m]; try (cbn; discriminate).
  cbn [getitem]. destruct (m !! "name") as [n|] eqn:Hn; cbn;
    [|destruct (m !! "type") as [ty|]; cbn; discriminate].
  destruct n as [| | |s| |]; cbn;
    try discriminate.
  destruct (m !! "type") as [ty|] eqn:Ht; cbn; [|discriminate].
  destruct ty as [|b|z| | |]; cbn; try discriminate.
  - destruct b; vm_compute; discriminate.
  - destruct (PIG_TYPE_TO_REDSHIFT_TYPE !! z) as [t|] eqn:Hz; cbn; [|discriminate].
    intros [= <-]. exists s, z, t. split; [|done]. by exists m.
Qed.

Lemma translate_loop_ret_inv fs d acc r :
  translate_loop PIG_TYPE_TO_REDSHIFT_TYPE fs d acc = Ret r ->
  exists cols,
    r = (acc ++ cols)%list
    /\ Forall2 (fun f c => translate_field PIG_TYPE_TO_REDSHIFT_TYPE f d = Ret c)
         fs cols.
Proof.
  revert acc. induction fs as [|f fs IH]; intros acc; cbn [translate_loop].
  - intros [= <-]. exists []. by rewrite app_nil_r.
  - destruct (translate_field PIG_TYPE_TO_REDSHIFT_TYPE f d) as [c|e] eqn:Hf;
      cbn; [|discriminate].
    intros Hloop. destruct (IH _ Hloop) as (cols & -> & H2).
    exists (c :: cols). split; [by rewrite <- app_assoc|by constructor].
Qed.

Lemma translate_field_key_error table f d key :
  translate_field table f d = Raise (KeyError key) -> key = "type".
Proof.
  unfold translate_field. destruct (try_body table f d) as [c|e]; [discriminate|].
  destruct e; cbn [is_KeyError]; try discriminate.
  unfold except_KeyError. destruct f as [| | | | |m]; try (cbn; discriminate).
  cbn. destruct (m !! "type"); cbn; [discriminate|]. by intros [= <-].
Qed.

Lemma translate_loop_key_error table fs d acc key :
  translate_loop table fs d acc = Raise (KeyError key) -> key = "type".
Proof.
  revert acc. induction fs as [|f fs IH]; intros acc; cbn [translate_loop];
    [discriminate|].
  destruct (translate_field table f d) as [c|e] eqn:Hf; cbn.
  - apply IH.
  - intros [= ->]. by apply translate_field_key_error in Hf.
Qed.

(** Iterating over a string or over the keys of a dictionary binds
    strings, and a string has no item ["name"]: the loop raises
    TypeError on the first of them. *)
Lemma translate_loop_over_strings table (keys : list string) d acc :
  keys <> [] ->
  translate_loop table (JStr <$> keys) d acc = Raise TypeError.
Proof. destruct keys as [|k keys]; [done|]. intros _. reflexivity. Qed.

Lemma table_range code t :
  PIG_TYPE_TO_REDSHIFT_TYPE !! code = Some t ->
  t ∈ ["boolean"; "integer"; "bigint"; "float8"; "timestamp"; "varchar(max)"].
Proof.
  unfold PIG_TYPE_TO_REDSHIFT_TYPE. intros H.
  repeat (apply lookup_insert_Some in H as [[_ <-]|[_ H]]; [by repeat constructor|]).
  by rewrite lookup_empty in H.
Qed.

End TranslatorMore.

(** X1: with a negative alias depth [d] the translator keeps the
    segments after the first [-(d + 1)]: all of them at [-1], none of
    them once that count reaches the number of segments. *)
Theorem negative_depth_drops_leading_segments (f : json) (name : string)
    (code : Z) (t : string) (d : Z) :
  descriptor f name code -> PIG_TYPE_TO_REDSHIFT_TYPE !! code = Some t ->
  d < 0 ->
  translate_field PIG_TYPE_TO_REDSHIFT_TYPE f d
  = Ret (PyStr.join "_" (drop (Z.to_nat (- (d + 1))) (PyStr.split name "::")), t).
Proof.
  intros Hd Hc Hneg.
  rewrite (translate_field_known _ f name code t d Hd Hc).
  by rewrite TranslatorMore.column_name_negative.
Qed.

Lemma negative_depth_drops_leading_segments_witness :
  translate_field PIG_TYPE_TO_REDSHIFT_TYPE
    (field_of "table_2::table_1::my_alias" 10) (-2)
  = Ret ("table_1_my_alias", "integer").
Proof.
  exact (negative_depth_drops_leading_segments
           (field_of "table_2::table_1::my_alias" 10)
           "table_2::table_1::my_alias" 10 "integer" (-2)
           (descriptor_field_of _ _) eq_refl ltac:(lia)).
Defined.

(** X2: a ["fields"] value that is not a list.  An empty string or an
    empty dictionary gives no columns; a non-empty one raises TypeError
    on its first character or key; null, a boolean or a number raises
    TypeError at once. *)
Theorem fields_not_a_list (table : gmap Z string) (m : gmap string json)
    (fields : json) (d : Z) :
  m !! "fields" = Some fields ->
  (forall items, fields <> JArr items) ->
  column_definitions_of_json table (JObj m) d
  = match fields with
    | JStr "" => Ret []
    | JObj members => if decide (members = ∅) then Ret [] else Raise TypeError
    | _ => Raise TypeError
    end.
Proof.
  intros Hf Hnl. unfold column_definitions_of_json. cbn. rewrite Hf. cbn.
  destruct fields as [| | |s|items|members]; try done.
  - destruct s as [|c s]; done.
  - by destruct (Hnl items).
  - cbn. rewrite <- list_fmap_compose. destruct (decide (members = ∅)) as [->|Hne].
    + by rewrite map_to_list_empty.
    + rewrite (list_fmap_compose fst JStr).
      apply TranslatorMore.translate_loop_over_strings.
      intros Hnil. apply fmap_nil_inv in Hnil.
      by apply map_to_list_empty_iff in Hnil.
Qed.

Lemma fields_not_a_list_witness :
  column_definitions_of_json PIG_TYPE_TO_REDSHIFT_TYPE
    (JObj (<["fields" := JObj (<["name" := JStr "a"]> ∅)]> ∅)) 1
  = Raise TypeError.
Proof.
  exact (fields_not_a_list PIG_TYPE_TO_REDSHIFT_TYPE
           (<["fields" := JObj (<["name" := JStr "a"]> ∅)]> ∅)
           (JObj (<["name" := JStr "a"]> ∅)) 1 eq_refl
           (fun items H => ltac:(discriminate H))).
Defined.

(** X3: the only KeyErrors that leave the translator are those for
    ["fields"] and ["type"]; the one for a missing ["name"] is always
    turned into something else by the handler. *)
Theorem key_error_is_fields_or_type (table : gmap Z string) (doc : json)
    (d : Z) (key : string) :
  column_definitions_of_json table doc d = Raise (KeyError key) ->
  key = "fields" \/ key = "type".
Proof.
  unfold column_definitions_of_json.
  destruct doc as [| | | | |m]; try (cbn; discriminate).
  cbn. destruct (m !! "fields") as [fields|]; cbn; [|intros [= <-]; by left].
  destruct (iterate fields) as [fs|e] eqn:Hit; cbn.
  - intros Hloop. right. by apply TranslatorMore.translate_loop_key_error in Hloop.
  - destruct fields; cbn in Hit; try discriminate; by inversion Hit.
Qed.

Lemma key_error_is_fields_or_type_witness :
  column_definitions_of_json PIG_TYPE_TO_REDSHIFT_TYPE
    (JObj (document [JObj (<["name" := JStr "a"]> ∅)])) 1
  = Raise (KeyError "type")
  /\ ("type" = "fields" \/ "type" = "type").
Proof.
  split; [reflexivity|].
  apply (key_error_is_fields_or_type PIG_TYPE_TO_REDSHIFT_TYPE
           (JObj (document [JObj (<["name" := JStr "a"]> ∅)])) 1 "type").
  reflexivity.
Defined.

(** X4: a returned list is never partial.  When the translator returns,
    the list has exactly one column for each descriptor of the document,
    in the order of the descriptors; each descriptor is an object with
    a string name and a type entry, and its column is named from that
    name. *)
Theorem returned_columns_complete (m : gmap string json) (fs : list json)
    (d : Z) (cols : list column) :
  m !! "fields" = Some (JArr fs) ->
  column_definitions_of_json PIG_TYPE_TO_REDSHIFT_TYPE (JObj m) d = Ret cols ->
  length cols = length fs
  /\ Forall2 (fun f c =>
                translate_field PIG_TYPE_TO_REDSHIFT_TYPE f d = Ret c
                /\ exists members name,
                     f = JObj members
                     /\ members !! "name" = Some (JStr name)
                     /\ is_Some (members !! "type")
                     /\ c.1 = column_name (PyStr.split name "::") d)
       fs cols.
Proof.
  intros Hf. unfold column_definitions_of_json. cbn. rewrite Hf. cbn.
  intros Hloop.
  destruct (TranslatorMore.translate_loop_ret_inv _ _ _ _ Hloop) as (cols' & -> & H2).
  cbn. split; [by rewrite (Forall2_length _ _ _ H2)|].
  clear Hloop Hf. induction H2 as [|f c fs cols' Hfc _ IH]; [constructor|].
  constructor; [|done]. split; [done|].
  destruct (TranslatorMore.translate_field_ret_inv _ _ _ Hfc)
    as (name & code & t & (members & -> & Hn & Ht) & Hc & ->).
  exists members, name. by rewrite Ht.
Qed.

Lemma returned_columns_complete_witness :
  length [("t1_id", "integer"); ("amount", "float8")]
  = length [field_of "t2::t1::id" 10; field_of "amount" 25]
  /\ Forall2 (fun f c =>
                translate_field PIG_TYPE_TO_REDSHIFT_TYPE f 1 = Ret c
                /\ exists members name,
                     f = JObj members
                     /\ members !! "name" = Some (JStr name)
                     /\ is_Some (members !! "type")
                     /\ c.1 = column_name (PyStr.split name "::") 1)
       [field_of "t2::t1::id" 10; field_of "amount" 25]
       [("t1_id", "integer"); ("amount", "float8")].
Proof.
  apply (returned_columns_complete
           (document [field_of "t2::t1::id" 10; field_of "amount" 25])
           [field_of "t2::t1::id" 10; field_of "amount" 25] 1
           [("t1_id", "integer"); ("amount", "float8")]).
  - reflexivity.
  - vm_compute. reflexivity.
Defined.

(** X5: a descriptor without a ["type"] key, reached after descriptors
    that translate, makes the translator raise KeyError for ["type"]:
    the handler's own lookup of the type fails.  It makes no difference
    whether the descriptor has a name. *)
Theorem typeless_descriptor_raises_key_error (pre post : list json)
    (m : gmap string json) (d : Z) :
  Forall (translatable PIG_TYPE_TO_REDSHIFT_TYPE) pre ->
  m !! "type" = None ->
  (m !! "name" = None \/ exists s, m !! "name" = Some (JStr s)) ->
  column_definitions_of_json PIG_TYPE_TO_REDSHIFT_TYPE
    (JObj (document (pre ++ JObj m :: post))) d
  = Raise (KeyError "type").
Proof.
  intros Hpre Ht Hn. unfold column_definitions_of_json. cbn.
  apply translate_loop_stops; [done|].
  unfold translate_field, try_body, except_KeyError. cbn.
  destruct Hn as [->|[s ->]]; cbn; by rewrite Ht.
Qed.

Lemma typeless_descriptor_raises_key_error_witness :
  column_definitions_of_json PIG_TYPE_TO_REDSHIFT_TYPE
    (JObj (document ([field_of "a" 5] ++ JObj (<["name" := JStr "b"]> ∅) :: []))) 1
  = Raise (KeyError "type").
Proof.
  apply (typeless_descriptor_raises_key_error [field_of "a" 5] []
           (<["name" := JStr "b"]> ∅) 1).
  - repeat constructor. exists "a", 5, "boolean".
    split; [apply descriptor_field_of|reflexivity].
  - reflexivity.
  - right. exists "b". reflexivity.
Defined.

(** Two descriptors with the same name and the same type entries. *)
Lemma translate_field_same_entries table (m1 m2 : gmap string json) d :
  m1 !! "name" = m2 !! "name" -> m1 !! "type" = m2 !! "type" ->
  translate_field table (JObj m1) d = translate_field table (JObj m2) d.
Proof.
  intros Hn Ht. unfold translate_field, try_body, except_KeyError. cbn.
  by rewrite Hn, Ht.
Qed.

Lemma translate_loop_same_fields table fs gs d acc :
  Forall2 (fun f g => translate_field table f d = translate_field table g d) fs gs ->
  translate_loop table fs d acc = translate_loop table gs d acc.
Proof.
  intros H. revert acc. induction H as [|f g fs gs Hfg _ IH]; intros acc; [done|].
  cbn [translate_loop]. rewrite Hfg.
  destruct (translate_field table g d); cbn; [apply IH|done].
Qed.

(** X6: the translation reads only the ["name"] and ["type"] entries of
    each descriptor: other entries, such as the description a schema
    file carries, change nothing. *)
Theorem translation_reads_name_and_type (table : gmap Z string)
    (ms1 ms2 : list (gmap string json)) (d : Z) :
  Forall2 (fun m1 m2 => m1 !! "name" = m2 !! "name"
                        /\ m1 !! "type" = m2 !! "type") ms1 ms2 ->
  column_definitions_of_json table (JObj (document (JObj <$> ms1))) d
  = column_definitions_of_json table (JObj (document (JObj <$> ms2))) d.
Proof.
  intros H. unfold column_definitions_of_json. cbn.
  apply translate_loop_same_fields.
  induction H as [|m1 m2 ms1 ms2 [Hn Ht] _ IH]; constructor; [|done].
  by apply translate_field_same_entries.
Qed.

Lemma translation_reads_name_and_type_witness :
  column_definitions_of_json PIG_TYPE_TO_REDSHIFT_TYPE
    (JObj (document (JObj <$>
       [<["description" := JStr "autogenerated from Pig Field Schema"]>
          (<["name" := JStr "id"]> (<["type" := JInt 10]> ∅))]))) 1
  = column_definitions_of_json PIG_TYPE_TO_REDSHIFT_TYPE
      (JObj (document (JObj <$>
         [<["name" := JStr "id"]> (<["type" := JInt 10]> ∅)]))) 1.
Proof.
  apply (translation_reads_name_and_type PIG_TYPE_TO_REDSHIFT_TYPE
           [<["description" := JStr "autogenerated from Pig Field Schema"]>
              (<["name" := JStr "id"]> (<["type" := JInt 10]> ∅))]
           [<["name" := JStr "id"]> (<["type" := JInt 10]> ∅)] 1).
  repeat constructor.
Defined.

(** X7: one more level of alias depth either changes nothing, when all
    segments are kept already, or puts the next segment to the left,
    with a "_", in front of the column name. *)
Theorem deeper_alias_prepends (segs : list string) (d : Z) :
  0 <= d ->
  (Z.of_nat (length segs) <= d + 1 ->
   column_name segs (d + 1) = column_name segs d)
  /\ (d + 1 < Z.of_nat (length segs) ->
      exists seg,
        segs !! (length segs - Z.to_nat (d + 2))%nat = Some seg
        /\ column_name segs (d + 1) = seg +:+ "_" +:+ column_name segs d).
Proof.
  intros Hd. unfold column_name. split.
  - intros Hall.
    rewrite !PyStrFacts.slice_from_all by lia. done.
  - intros Hmore.
    rewrite !PyStrFacts.slice_from_last_k by lia. unfold PyStr.last_k.
    replace (Z.to_nat (Z.min (d + 1 + 1) (Z.of_nat (length segs))))
      with (Z.to_nat (d + 2)) by lia.
    replace (Z.to_nat (Z.min (d + 1) (Z.of_nat (length segs))))
      with (Z.to_nat (d + 1)) by lia.
    destruct (lookup_lt_is_Some_2 segs (length segs - Z.to_nat (d + 2))%nat)
      as [seg Hseg]; [lia|].
    exists seg. split; [done|].
    rewrite (drop_S _ _ _ Hseg).
    replace (S (length segs - Z.to_nat (d + 2)))
      with (length segs - Z.to_nat (d + 1))%nat by lia.
    destruct (drop (length segs - Z.to_nat (d + 1)) segs) as [|y ys] eqn:Hrest; [|done].
    apply (f_equal length) in Hrest. rewrite length_drop in Hrest. simpl in Hrest. lia.
Qed.

Lemma deeper_alias_prepends_witness :
  (Z.of_nat (length ["table_2"; "table_1"; "my_alias"]) <= 0 + 1 ->
   column_name ["table_2"; "table_1"; "my_alias"] (0 + 1)
   = column_name ["table_2"; "table_1"; "my_alias"] 0)
  /\ (0 + 1 < Z.of_nat (length ["table_2"; "table_1"; "my_alias"]) ->
      exists seg,
        ["table_2"; "table_1"; "my_alias"]
          !! (length ["table_2"; "table_1"; "my_alias"] - Z.to_nat (0 + 2))%nat
        = Some seg
        /\ column_name ["table_2"; "table_1"; "my_alias"] (0 + 1)
           = seg +:+ "_" +:+ column_name ["table_2"; "table_1"; "my_alias"] 0).
Proof. apply (deeper_alias_prepends ["table_2"; "table_1"; "my_alias"] 0). lia. Defined.

(** X8: a field name without a colon is its own column name at every
    alias depth from -1 up. *)
Theorem unqualified_name_kept (name : string) (d : Z) :
  PyStr.count_char ":" name = O -> -1 <= d ->
  column_name (PyStr.split name "::") d = name.
Proof.
  intros Hname Hd. unfold PyStr.split.
  rewrite (TranslatorMore.split_go_no_colon name Hname).
  unfold column_name, PyStr.slice_from. cbn [length].
  destruct (Z.ltb_spec (- Z.min (d + 1) (Z.of_nat 1)) 0).
  - replace (Z.to_nat _) with O by lia. done.
  - replace (Z.to_nat _) with O by lia. done.
Qed.

Lemma unqualified_name_kept_witness :
  column_name (PyStr.split "amount" "::") (-1) = "amount".
Proof. apply (unqualified_name_kept "amount" (-1)); [reflexivity|lia]. Defined.

(** X9: the type of a returned column is one of the six Redshift types
    of the table. *)
Theorem column_type_is_redshift_type (f : json) (d : Z) (n t : string) :
  translate_field PIG_TYPE_TO_REDSHIFT_TYPE f d = Ret (n, t) ->
  t ∈ ["boolean"; "integer"; "bigint"; "float8"; "timestamp"; "varchar(max)"].
Proof.
  intros Hf.
  destruct (TranslatorMore.translate_field_ret_inv _ _ _ Hf)
    as (name & code & t' & _ & Hc & [= _ <-]).
  by apply TranslatorMore.table_range in Hc.
Qed.

Lemma column_type_is_redshift_type_witness :
  translate_field PIG_TYPE_TO_REDSHIFT_TYPE (field_of "n" 65) 1 = Ret ("n", "bigint")
  /\ "bigint" ∈ ["boolean"; "integer"; "bigint"; "float8"; "timestamp";
                 "varchar(max)"].
Proof.
  split; [reflexivity|].
  apply (column_type_is_redshift_type (field_of "n" 65) 1 "n" "bigint").
  reflexivity.
Defined.

(** ** Further properties of the task *)

(** X10: [_set_columns] is all or nothing, and touches only the
    columns.  The alias depth, the schema path and the table keys are
    never changed, and when it raises, the task is as it was. *)
Theorem set_columns_changes_only_columns (json_loads : string -> outcome json)
    (s3 : gmap string string) (self : task) :
  let r := _set_columns json_loads s3 self in
  pig_alias_depth r.2 = pig_alias_depth self
  /\ s3_schema_path r.2 = s3_schema_path self
  /\ table_keys r.2 = table_keys self
  /\ (forall e, r.1 = Raise e -> r.2 = self).
Proof.
  unfold _set_columns.
  destruct (_read_schema_file s3 self) as [schema|e]; [|done].
  destruct (get_column_definitions_from_pig_schema _ _ _ _) as [cols|e]; [|done].
  cbn. repeat split. discriminate.
Qed.

Lemma read_schema_file_same_path (s3 : gmap string string) (self self' : task) :
  s3_schema_path self' = s3_schema_path self ->
  _read_schema_file s3 self' = _read_schema_file s3 self.
Proof. intros Hp. unfold _read_schema_file. by rewrite Hp. Qed.

(** X11: setting the columns again gives the same task: the new columns
    replace the old ones, and the table keys are not appended a second
    time. *)
Theorem set_columns_idempotent (json_loads : string -> outcome json)
    (s3 : gmap string string) (self : task) :
  _set_columns json_loads s3 (_set_columns json_loads s3 self).2
  = _set_columns json_loads s3 self.
Proof.
  unfold _set_columns at 2.
  destruct (_read_schema_file s3 self) as [schema|e] eqn:Hread; [|done].
  destruct (get_column_definitions_from_pig_schema _ _ _ _) as [cols|e] eqn:Hcols;
    [|done].
  cbn [snd]. unfold _set_columns.
  rewrite (read_schema_file_same_path s3 self) by done. rewrite Hread.
  cbn [pig_alias_depth set_task_columns table_keys]. by rewrite Hcols.
Qed.

(** X12: the list the translator returns is a new object: no list that
    existed before the call is at its address, so the caller may extend
    it in place, as [_set_columns] does, without changing another. *)
Theorem returned_list_is_new (json_loads : string -> outcome json)
    (schema : string) (d : Z) (st : Store.state) (l : nat) :
  (Store.get_column_definitions_from_pig_schema json_loads schema d st).1 = Ret l ->
  Store.heap st !! l = None.
Proof.
  unfold Store.get_column_definitions_from_pig_schema.
  unfold Store.bind at 1, Store.lift.
  destruct (json_loads schema) as [doc|e]; cbn; [|discriminate].
  destruct (getitem doc "fields") as [fields|e]; cbn; [|discriminate].
  destruct (iterate fields) as [fs|e]; cbn; [|discriminate].
  set (l0 := fresh (dom (Store.heap st))).
  set (st1 := {| Store.global_table := Store.global_table st;
                 Store.heap := <[l0 := []]> (Store.heap st) |}).
  destruct (StoreFacts.translate_loop_spec fs d l0 st1 [])
    as (st' & _ & _ & Hres & _).
  { apply lookup_insert_eq. }
  unfold Store.bind. rewrite Hres.
  destruct (translate_loop (Store.global_table st1) fs d []); cbn; [|discriminate].
  intros [= <-]. apply not_elem_of_dom. apply is_fresh.
Qed.

Lemma returned_list_is_new_witness :
  (Store.get_column_definitions_from_pig_schema
     (loads_as (JObj (document [field_of "amount" 25]))) "schema" 1
     {| Store.global_table := PIG_TYPE_TO_REDSHIFT_TYPE;
        Store.heap := <[0%nat := [("kept", "integer")]]> ∅ |}).1 = Ret 1%nat
  /\ Store.heap {| Store.global_table := PIG_TYPE_TO_REDSHIFT_TYPE;
                   Store.heap := <[0%nat := [("kept", "integer")]]> ∅ |} !! 1%nat
     = None.
Proof.
  split; [vm_compute; reflexivity|].
  apply (returned_list_is_new
           (loads_as (JObj (document [field_of "amount" 25]))) "schema" 1
           {| Store.global_table := PIG_TYPE_TO_REDSHIFT_TYPE;
              Store.heap := <[0%nat := [("kept", "integer")]]> ∅ |} 1%nat).
  vm_compute. reflexivity.
Defined.

(** ** Further properties of the transfer *)

Module DirectStoreMore.

Import Transfer DirectStore.

Lemma append_empty_l s : "" +:+ s = s.
Proof. done. Qed.

(** Whether the medium has room for [n] more characters. *)
Lemma do_write_fits p data st :
  match quota st with Some q => (String.length data <= q)%nat | None => True end ->
  exists q',
    do_write p data st
    = (Ret tt,
       {| files := <[p := contents p st +:+ data]> (files st);
          quota := q';
          trace := (trace st ++ [EvWrite p (String.length data)])%list |}).
Proof.
  unfold do_write, log, set_files. destruct (quota st) as [q|]; intros Hq.
  - apply Nat.leb_le in Hq. rewrite Hq. by eexists.
  - by eexists.
Qed.

(** What a write leaves, whether it fails or not. *)
Lemma do_write_files p data st r st' :
  do_write p data st = (r, st') ->
  exists written, files st' = <[p := written]> (files st).
Proof.
  unfold do_write.
  destruct (quota st) as [q|]; [destruct (String.length data <=? q)%nat|];
    intros [= _ <-]; cbn; by eexists.
Qed.

(** The stores a run from a store without the destination goes
    through: the files are those at the start, with the destination
    added once the source could be opened. *)
Lemma run_files src dst st :
  files st !! dst = None ->
  let st' := (run (target src) (target dst) st).2 in
  (files st !! src = None /\ st' = st)
  \/ (is_Some (files st !! src)
      /\ exists written, files st' = <[dst := written]> (files st)).
Proof.
  intros Hdst. unfold run. cbn [output lookup list_lookup].
  cbn [exists_ target]. rewrite bool_decide_eq_false_2 by (rewrite Hdst; by intros [x Hx]).
  cbn [negb]. unfold try_except, copy_step, bind. cbn [open target do_open].
  destruct (files st !! src) as [c|] eqn:Hsrc; [|by left].
  right. split; [by eexists|].
  cbn [read write close file_at do_read log set_files files quota trace].
  match goal with |- context [do_write dst ?data ?s] =>
    destruct (do_write dst data s) as [[[]|e] st2] eqn:Hw end.
  - apply do_write_files in Hw as [written Hw]. cbn in *.
    exists written. rewrite Hw. by rewrite insert_insert_eq.
  - apply do_write_files in Hw as [written Hw]. cbn in *.
    exists written. rewrite Hw. by rewrite insert_insert_eq.
Qed.

End DirectStoreMore.

Module DirectStoreCopy.

Import Transfer DirectStore.

(** The copy step when nothing fails. *)
Lemma copy_step_succeeds src dst st c :
  files st !! src = Some c ->
  files st !! dst = None ->
  match quota st with Some q => (String.length c <= q)%nat | None => True end ->
  exists q',
    copy_step (target src) (target dst) st
    = (Ret tt,
       {| files := <[dst := c]> (files st);
          quota := q';
          trace := (trace st
                    ++ [EvOpen src ModeR; EvOpen dst ModeW;
                        EvRead src (String.length c);
                        EvWrite dst (String.length c); EvClose dst])%list |}).
Proof.
  intros Hsrc Hdst Hroom.
  assert (src <> dst) as Hne by congruence.
  unfold copy_step, bind. cbn [open target do_open]. rewrite Hsrc.
  cbn [read write close file_at do_read].
  unfold log, set_files, contents. cbn [files quota trace].
  rewrite lookup_insert_ne by done. rewrite Hsrc. cbn [default from_option]. unfold id.
  match goal with |- context [do_write dst c ?s] =>
    destruct (DirectStoreMore.do_write_fits dst c s) as [q' Hw]; [exact Hroom|];
    rewrite Hw end.
  exists q'. unfold do_close, log, contents. cbn [files quota trace].
  rewrite lookup_insert_eq. cbn [default from_option]. unfold id.
  rewrite insert_insert_eq, DirectStoreMore.append_empty_l.
  by rewrite <- !app_assoc.
Qed.

End DirectStoreCopy.

(** X14: when the source exists, the destination does not and the
    medium has room, [run] succeeds, the destination holds exactly the
    contents of the source, no other file changes, and the operations
    are: open both, one read, one write, close the destination. *)
Theorem run_copies_source (src dst : string) (st : DirectStore.store)
    (c : string) :
  DirectStore.files st !! src = Some c ->
  DirectStore.files st !! dst = None ->
  match DirectStore.quota st with
  | Some q => (String.length c <= q)%nat
  | None => True
  end ->
  let r := Transfer.run (DirectStore.target src) (DirectStore.target dst) st in
  r.1 = Ret tt
  /\ DirectStore.files r.2 = <[dst := c]> (DirectStore.files st)
  /\ DirectStore.trace r.2
     = (DirectStore.trace st
        ++ [DirectStore.EvOpen src Transfer.ModeR;
            DirectStore.EvOpen dst Transfer.ModeW;
            DirectStore.EvRead src (String.length c);
            DirectStore.EvWrite dst (String.length c);
            DirectStore.EvClose dst])%list.
Proof.
  intros Hsrc Hdst Hroom.
  destruct (DirectStoreCopy.copy_step_succeeds src dst st c Hsrc Hdst Hroom)
    as [q' Hcopy].
  assert (Transfer.exists_ (DirectStore.target dst) st = false) as Habsent.
  { cbn. apply bool_decide_eq_false. rewrite Hdst. by intros [x Hx]. }
  rewrite (TransferFacts.run_copy_succeeds _ _ _ _ Habsent Hcopy).
  done.
Qed.

Lemma run_copies_source_witness :
  let r := Transfer.run (DirectStore.target "/in/f") (DirectStore.target "/out/f")
             {| DirectStore.files := <["/in/f" := "hello"]> ∅;
                DirectStore.quota := Some 5%nat;
                DirectStore.trace := [] |} in
  r.1 = Ret tt
  /\ DirectStore.files r.2 = <["/out/f" := "hello"]> (<["/in/f" := "hello"]> ∅)
  /\ DirectStore.trace r.2
     = ([] ++ [DirectStore.EvOpen "/in/f" Transfer.ModeR;
               DirectStore.EvOpen "/out/f" Transfer.ModeW;
               DirectStore.EvRead "/in/f" (String.length "hello");
               DirectStore.EvWrite "/out/f" (String.length "hello");
               DirectStore.EvClose "/out/f"])%list.
Proof.
  exact (run_copies_source "/in/f" "/out/f"
           {| DirectStore.files := <["/in/f" := "hello"]> ∅;
              DirectStore.quota := Some 5%nat;
              DirectStore.trace := [] |} "hello"
           eq_refl eq_refl (le_n 5)).
Defined.

(** X15: [run] never removes or rewrites a file that exists: every file
    there before is there afterwards with the same contents, whether
    the run skips, copies or fails. *)
Theorem run_keeps_existing_files (src dst p : string) (st : DirectStore.store)
    (c : string) :
  DirectStore.files st !! p = Some c ->
  DirectStore.files
    (Transfer.run (DirectStore.target src) (DirectStore.target dst) st).2 !! p
  = Some c.
Proof.
  intros Hp. destruct (DirectStore.files st !! dst) as [old|] eqn:Hdst.
  - rewrite TransferFacts.run_skips; [done|].
    cbn. apply bool_decide_eq_true. rewrite Hdst. by eexists.
  - destruct (DirectStoreMore.run_files src dst st Hdst)
      as [[_ ->]|[_ [written ->]]]; [done|].
    rewrite lookup_insert_ne; [done|]. congruence.
Qed.

Lemma run_keeps_existing_files_witness :
  DirectStore.files
    (Transfer.run (DirectStore.target "/in/f") (DirectStore.target "/out/f")
       DirectStore.store_nearly_full).2 !! "/in/f"
  = Some "hello".
Proof.
  apply (run_keeps_existing_files "/in/f" "/out/f" "/in/f"
           DirectStore.store_nearly_full "hello").
  reflexivity.
Defined.

(** X16: when neither the source nor the destination exists, [run]
    raises, nothing is created and no operation is recorded: the source
    is opened before the destination. *)
Theorem run_missing_source (src dst : string) (st : DirectStore.store) :
  DirectStore.files st !! src = None ->
  DirectStore.files st !! dst = None ->
  Transfer.run (DirectStore.target src) (DirectStore.target dst) st
  = (Raise AttributeError, st).
Proof.
  intros Hsrc Hdst. apply TransferFacts.run_copy_fails with IOError.
  - cbn. apply bool_decide_eq_false. rewrite Hdst. by intros [x Hx].
  - unfold Transfer.copy_step, Transfer.bind. cbn. by rewrite Hsrc.
Qed.

Lemma run_missing_source_witness :
  Transfer.run (DirectStore.target "/in/missing") (DirectStore.target "/out/f")
    DirectStore.store_nearly_full
  = (Raise AttributeError, DirectStore.store_nearly_full).
Proof.
  apply (run_missing_source "/in/missing" "/out/f" DirectStore.store_nearly_full);
    reflexivity.
Defined.

(** X17: two runs in a row.  After a run that returned normally,
    whether it skipped or copied, the next run is a no-op: it succeeds
    and leaves the store, with its record of operations, as it found
    it. *)
Theorem second_run_skips (src dst : string) (st : DirectStore.store) :
  (Transfer.run (DirectStore.target src) (DirectStore.target dst) st).1 = Ret tt ->
  Transfer.run (DirectStore.target src) (DirectStore.target dst)
    (Transfer.run (DirectStore.target src) (DirectStore.target dst) st).2
  = (Ret tt, (Transfer.run (DirectStore.target src) (DirectStore.target dst) st).2).
Proof. apply DirectStoreFacts.run_twice. Qed.

Lemma second_run_skips_witness :
  Transfer.run (DirectStore.target "/in/f") (DirectStore.target "/out/f")
    (Transfer.run (DirectStore.target "/in/f") (DirectStore.target "/out/f")
       {| DirectStore.files := <["/in/f" := "hello"]> ∅;
          DirectStore.quota := None;
          DirectStore.trace := [] |}).2
  = (Ret tt,
     (Transfer.run (DirectStore.target "/in/f") (DirectStore.target "/out/f")
        {| DirectStore.files := <["/in/f" := "hello"]> ∅;
           DirectStore.quota := None;
           DirectStore.trace := [] |}).2).
Proof.
  apply (second_run_skips "/in/f" "/out/f"
           {| DirectStore.files := <["/in/f" := "hello"]> ∅;
              DirectStore.quota := None;
              DirectStore.trace := [] |}).
  vm_compute. reflexivity.
Defined.

(** X18: once the source exists, a run leaves the destination in place
    whatever its outcome, so a run after it skips: a copy that failed
    midway is not made again, and the destination keeps what the failed
    copy wrote. *)
Theorem run_after_any_run_skips (src dst : string) (st : DirectStore.store) :
  is_Some (DirectStore.files st !! src) ->
  let st' := (Transfer.run (DirectStore.target src) (DirectStore.target dst) st).2 in
  Transfer.run (DirectStore.target src) (DirectStore.target dst) st' = (Ret tt, st').
Proof.
  intros Hsrc st'. apply TransferFacts.run_skips.
  cbn. apply bool_decide_eq_true. subst st'.
  destruct (DirectStore.files st !! dst) as [old|] eqn:Hdst.
  - rewrite TransferFacts.run_skips.
    + cbn. rewrite Hdst. by eexists.
    + cbn. apply bool_decide_eq_true. rewrite Hdst. by eexists.
  - destruct (DirectStoreMore.run_files src dst st Hdst)
      as [[Hnone _]|[_ [written ->]]].
    + rewrite Hnone in Hsrc. by destruct Hsrc.
    + rewrite lookup_insert_eq. by eexists.
Qed.

Lemma run_after_any_run_skips_witness :
  let st' := (Transfer.run (DirectStore.target "/in/f") (DirectStore.target "/out/f")
                DirectStore.store_nearly_full).2 in
  Transfer.run (DirectStore.target "/in/f") (DirectStore.target "/out/f") st'
  = (Ret tt, st')
  /\ DirectStore.files st' !! "/out/f" = Some "he".
Proof.
  split; [|vm_compute; reflexivity].
  apply (run_after_any_run_skips "/in/f" "/out/f" DirectStore.store_nearly_full).
  vm_compute. by eexists.
Defined.

(** ** The cached client *)

(** X19: the client is made once.  After a call that returned a client,
    the attribute holds it, and every later call returns that same
    client without reading the configuration, whatever it has become;
    a call that raised leaves the attribute as it was. *)
Theorem s3_client_is_cached (config_get config_get' : string -> string -> outcome string)
    (client : option s3_client) :
  let r := get_s3_client config_get client in
  (forall c, r.1 = Ret c ->
     r.2 = Some c /\ get_s3_client config_get' r.2 = (Ret c, Some c))
  /\ (forall e, r.1 = Raise e -> r.2 = client /\ client = None).
Proof.
  cbv zeta. destruct client as [c0|].
  - cbn. split; [by intros c [= <-]|discriminate].
  - destruct (get_s3_client config_get None) as [r cl] eqn:Hr. cbn [fst snd].
    unfold get_s3_client in Hr.
    destruct (config_get "s3" "aws_s3_access_key_id") as [key_id|e1];
      [|inversion Hr; split; [discriminate|done]].
    destruct (config_get "s3" "aws_s3_secret_access_key") as [secret|e2];
      [|inversion Hr; split; [discriminate|done]].
    inversion Hr. split; [by intros c [= <-]|discriminate].
Qed.

(** ** The two directions *)

Module PlacesFacts.

Import Transfer DirectStore Places.

Lemma place_eq_dec (a b : place) : {a = b} + {a <> b}.
Proof. decide equality. Qed.

Lemma at_put_eq pl s w : at_place pl (put_place pl s w) = s.
Proof. by destruct pl. Qed.

Lemma at_put_ne pl pl' s w : pl <> pl' -> at_place pl' (put_place pl s w) = at_place pl' w.
Proof. by destruct pl, pl'. Qed.

Lemma put_put pl s s' w : put_place pl s' (put_place pl s w) = put_place pl s' w.
Proof. by destruct pl. Qed.

(** A copy from one place to the other, when nothing fails: the
    destination place gets the file, and in the source place only the
    record of operations grows. *)
Lemma run_across src_pl dst_pl src dst w c :
  src_pl <> dst_pl ->
  files (at_place src_pl w) !! src = Some c ->
  files (at_place dst_pl w) !! dst = None ->
  quota (at_place dst_pl w) = None ->
  let r := run (target_on src_pl src) (target_on dst_pl dst) w in
  r.1 = Ret tt
  /\ files (at_place dst_pl r.2) = <[dst := c]> (files (at_place dst_pl w))
  /\ quota (at_place dst_pl r.2) = None
  /\ files (at_place src_pl r.2) = files (at_place src_pl w)
  /\ quota (at_place src_pl r.2) = quota (at_place src_pl w).
Proof.
  intros Hpl Hsrc Hdst Hq.
  assert (exists_ (target_on dst_pl dst) w = false) as Habsent.
  { cbn. apply bool_decide_eq_false. rewrite Hdst. by intros [x Hx]. }
  assert (exists w',
    copy_step (target_on src_pl src) (target_on dst_pl dst) w = (Ret tt, w')
    /\ files (at_place dst_pl w') = <[dst := c]> (files (at_place dst_pl w))
    /\ quota (at_place dst_pl w') = None
    /\ files (at_place src_pl w') = files (at_place src_pl w)
    /\ quota (at_place src_pl w') = quota (at_place src_pl w)) as (w' & Hcopy & Hres).
  { clear Habsent.
    destruct src_pl, dst_pl; try done; destruct w as [dk bk];
      cbn [at_place disk bucket] in *;
      unfold copy_step, bind; cbn [open target_on]; unfold open_on, do_open;
      cbn [at_place disk bucket]; rewrite Hsrc;
      cbn [read write close file_on put_place at_place disk bucket];
      unfold on, do_read, do_write, do_close, log, set_files, contents;
      cbn [at_place put_place disk bucket files quota trace];
      rewrite ?Hsrc, ?Hq;
      cbn [default from_option at_place put_place disk bucket files quota trace];
      (eexists; split; [reflexivity|]);
      cbn [disk bucket files quota trace];
      rewrite lookup_insert_eq; cbn [default from_option]; unfold id;
      by rewrite insert_insert_eq. }
  rewrite (TransferFacts.run_copy_succeeds _ _ _ _ Habsent Hcopy). by split.
Qed.

End PlacesFacts.

(** ** The task with its method calls *)

Module TaskFacts.

Section Run.

Context {World : Type}.
Variables input_target output_target : Transfer.IO World (Task.target World).

(** The handler raises AttributeError as soon as [self.output()] has
    returned its list. *)
Lemma task_cleanup_raises w t w' :
  output_target w = (Ret t, w') ->
  Task.cleanup output_target w = (Raise AttributeError, w').
Proof.
  intros H. unfold Task.cleanup, Task.output, Transfer.bind. by rewrite H.
Qed.

Lemma run_check_raises_in_output w e w' :
  output_target w = (Raise e, w') ->
  Task.run input_target output_target w = (Raise e, w').
Proof.
  intros H. unfold Task.run, Task.output, Transfer.bind. by rewrite H.
Qed.

Lemma run_check_raises_in_exists w t w1 e w2 :
  output_target w = (Ret t, w1) ->
  Task.exists_ t w1 = (Raise e, w2) ->
  Task.run input_target output_target w = (Raise e, w2).
Proof.
  intros H He. unfold Task.run, Task.output, Transfer.bind. rewrite H. cbn.
  by rewrite He.
Qed.

Lemma task_run_skips w t w1 w2 :
  output_target w = (Ret t, w1) ->
  Task.exists_ t w1 = (Ret true, w2) ->
  Task.run input_target output_target w = (Ret tt, w2).
Proof.
  intros H He. unfold Task.run, Task.output, Transfer.bind. rewrite H. cbn.
  by rewrite He.
Qed.

Lemma task_run_copies w t w1 w2 :
  output_target w = (Ret t, w1) ->
  Task.exists_ t w1 = (Ret false, w2) ->
  Task.run input_target output_target w
  = Transfer.try_except (Task.copy_step input_target output_target)
      (Task.cleanup output_target) w2.
Proof.
  intros H He. unfold Task.run, Task.output, Transfer.bind. rewrite H. cbn.
  by rewrite He.
Qed.

End Run.

(** With targets that are built without effect and a check that is a
    test of the world, the task is [Transfer.run]. *)
Lemma run_of_targets {World : Type} (i o : Transfer.Target World) (w : World) :
  Task.run (Transfer.ret (Task.of_target i)) (Transfer.ret (Task.of_target o)) w
  = Transfer.run i o w.
Proof.
  unfold Task.run, Task.output, Transfer.run, Transfer.output, Transfer.bind,
    Transfer.ret. cbn.
  destruct (Transfer.exists_ o w); cbn; [done|].
  unfold Transfer.try_except, Task.copy_step, Transfer.copy_step, Transfer.bind.
  cbn.
  destruct (Transfer.open i Transfer.ModeR w) as [[r|e] w1]; [|done].
  destruct (Transfer.open o Transfer.ModeW w1) as [[f|e] w2]; [|done].
  destruct (Transfer.read r w2) as [[data|e] w3]; [|done].
  destruct (Transfer.write f data w3) as [[[]|e] w4]; [|done].
  by destruct (Transfer.close f w4) as [[[]|e] w5].
Qed.

End TaskFacts.

(** ** The two directions with their client *)

Module DirectionFacts.

Lemma copy_step_in_places i o ti to s :
  builds i ti -> builds o to ->
  exists client,
    Task.copy_step i o s
    = ((Transfer.copy_step ti to (places s)).1,
       {| places := (Transfer.copy_step ti to (places s)).2;
          self_client := client |}).
Proof.
  intros Hi Ho. unfold Task.copy_step, Transfer.copy_step, Transfer.bind.
  destruct (Hi s) as [cl1 ->].
  cbn [Task.open target_in_places places self_client].
  destruct (Transfer.open ti Transfer.ModeR (places s)) as [[r|e] w1];
    [|by eexists].
  destruct (Ho {| places := w1; self_client := cl1 |}) as [cl2 ->].
  cbn [Task.open target_in_places places self_client].
  destruct (Transfer.open to Transfer.ModeW w1) as [[f|e] w2]; [|by eexists].
  cbn [Transfer.read Transfer.write Transfer.close file_in_places].
  unfold in_places. cbn [places self_client].
  destruct (Transfer.read r w2) as [[data|e] w3]; [|by eexists].
  cbn [places self_client].
  destruct (Transfer.write f data w3) as [[[]|e] w4]; [|by eexists].
  cbn [places self_client].
  destruct (Transfer.close f w4) as [[[]|e] w5]; by eexists.
Qed.

(** A task whose methods build stand-ins behaves on the media as
    [Transfer.run] on the targets they stand for. *)
Lemma run_in_places i o ti to s :
  builds i ti -> builds o to ->
  exists client,
    Task.run i o s
    = ((Transfer.run ti to (places s)).1,
       {| places := (Transfer.run ti to (places s)).2; self_client := client |}).
Proof.
  intros Hi Ho. destruct (Ho s) as [cl1 Hout].
  unfold Transfer.run. cbn [Transfer.output lookup list_lookup].
  destruct (Transfer.exists_ to (places s)) eqn:Hex; cbn [negb].
  - exists cl1. by apply TaskFacts.task_run_skips with (target_in_places to)
      {| places := places s; self_client := cl1 |}; [|cbn; rewrite Hex].
  - rewrite (TaskFacts.task_run_copies i o s _ _ {| places := places s; self_client := cl1 |} Hout)
      by (cbn; by rewrite Hex).
    unfold Transfer.try_except.
    destruct (copy_step_in_places i o ti to {| places := places s; self_client := cl1 |} Hi Ho)
      as [cl2 ->]. cbn [places].
    destruct (Transfer.copy_step ti to (places s)) as [[[]|e] w']; cbn [fst snd].
    + by exists cl2.
    + destruct (Ho {| places := w'; self_client := cl2 |}) as [cl3 Hout'].
      exists cl3. by rewrite (TaskFacts.task_cleanup_raises _ _ _ _ Hout').
Qed.

End DirectionFacts.

Module DirectionBuilds.

Lemma builds_disk p :
  builds (Transfer.ret (disk_target p)) (Places.target_on Places.Disk p).
Proof. intros [w cl]. by exists cl. Qed.

(** With both keys in the configuration, or with the client made
    already, the call of [get_s3_client] returns. *)
Lemma get_s3_client_returns config_get key_id secret client :
  config_get "s3" "aws_s3_access_key_id" = Ret key_id ->
  config_get "s3" "aws_s3_secret_access_key" = Ret secret ->
  exists c, get_s3_client config_get client = (Ret c, Some c).
Proof.
  intros Hk Hs. destruct client as [c|]; cbn; [by exists c|].
  rewrite Hk, Hs. by eexists.
Qed.

Lemma builds_bucket config_get key_id secret p :
  config_get "s3" "aws_s3_access_key_id" = Ret key_id ->
  config_get "s3" "aws_s3_secret_access_key" = Ret secret ->
  builds (Transfer.bind (call_get_s3_client config_get)
            (fun client => Transfer.ret (bucket_target p client)))
    (Places.target_on Places.Bucket p).
Proof.
  intros Hk Hs [w cl]. unfold Transfer.bind, call_get_s3_client. cbn [self_client places].
  destruct (get_s3_client_returns config_get key_id secret cl Hk Hs) as [c ->].
  by exists (Some c).
Qed.

End DirectionBuilds.

(** X20: upload, then download.  When the configuration has both keys,
    the local file exists, the key and the second local file do not,
    and both media have room, LocalToS3Task followed by S3ToLocalTask
    for the same [s3_path] and [file_name] succeeds twice and leaves in
    the second local directory a file with exactly the contents of the
    first; the first file and the uploaded object stay. *)
Theorem upload_then_download (config_get : string -> string -> outcome string)
    (key_id secret : string) (up down : transfer_task) (w : Places.world)
    (client_up client_down : option s3_client) (c : string) :
  config_get "s3" "aws_s3_access_key_id" = Ret key_id ->
  config_get "s3" "aws_s3_secret_access_key" = Ret secret ->
  s3_path down = s3_path up ->
  file_name down = file_name up ->
  DirectStore.files (Places.disk w) !! (local_path up +:+ "/" +:+ file_name up)
  = Some c ->
  DirectStore.files (Places.bucket w) !! (s3_path up +:+ "/" +:+ file_name up)
  = None ->
  DirectStore.files (Places.disk w) !! (local_path down +:+ "/" +:+ file_name down)
  = None ->
  DirectStore.quota (Places.disk w) = None ->
  DirectStore.quota (Places.bucket w) = None ->
  let r1 := LocalToS3Task.run config_get up
              {| places := w; self_client := client_up |} in
  let r2 := S3ToLocalTask.run config_get down
              {| places := places r1.2; self_client := client_down |} in
  r1.1 = Ret tt /\ r2.1 = Ret tt
  /\ DirectStore.files (Places.disk (places r2.2))
       !! (local_path down +:+ "/" +:+ file_name down) = Some c
  /\ DirectStore.files (Places.disk (places r2.2))
       !! (local_path up +:+ "/" +:+ file_name up) = Some c
  /\ DirectStore.files (Places.bucket (places r2.2))
       !! (s3_path up +:+ "/" +:+ file_name up) = Some c.
Proof.
  intros Hk Hsec Hs3 Hname Hsrc Hkey Hdst Hqd Hqb r1 r2.
  assert (Places.Disk <> Places.Bucket) as Hdb by discriminate.
  assert (Places.Bucket <> Places.Disk) as Hbd by discriminate.
  destruct (DirectionFacts.run_in_places
              (LocalToS3Task.input_target up)
              (LocalToS3Task.output_target config_get up)
              _ _ {| places := w; self_client := client_up |}
              (DirectionBuilds.builds_disk _)
              (DirectionBuilds.builds_bucket config_get key_id secret _ Hk Hsec))
    as [cl1 Hrun1].
  cbn [places] in Hrun1.
  destruct (PlacesFacts.run_across Places.Disk Places.Bucket _ _ w c
              Hdb Hsrc Hkey Hqb) as (Hr1 & Hb1 & Hqb1 & Hd1 & Hqd1).
  cbn [Places.at_place] in Hr1, Hb1, Hqb1, Hd1, Hqd1.
  assert (r1.1 = Ret tt) as Hret1 by (subst r1; unfold LocalToS3Task.run; by rewrite Hrun1).
  assert (places r1.2
          = (Transfer.run
               (Places.target_on Places.Disk (local_path up +:+ "/" +:+ file_name up))
               (Places.target_on Places.Bucket (s3_path up +:+ "/" +:+ file_name up))
               w).2) as Hw1 by (subst r1; unfold LocalToS3Task.run; by rewrite Hrun1).
  destruct (DirectionFacts.run_in_places
              (S3ToLocalTask.input_target config_get down)
              (S3ToLocalTask.output_target down)
              _ _ {| places := places r1.2; self_client := client_down |}
              (DirectionBuilds.builds_bucket config_get key_id secret _ Hk Hsec)
              (DirectionBuilds.builds_disk _))
    as [cl2 Hrun2].
  cbn [places] in Hrun2.
  destruct (PlacesFacts.run_across Places.Bucket Places.Disk
              (s3_path down +:+ "/" +:+ file_name down)
              (local_path down +:+ "/" +:+ file_name down) (places r1.2) c Hbd)
    as (Hr2 & Hd2 & _ & Hb2 & _).
  { cbn [Places.at_place]. rewrite Hw1, Hb1, Hs3, Hname. apply lookup_insert_eq. }
  { cbn [Places.at_place]. by rewrite Hw1, Hd1. }
  { cbn [Places.at_place]. by rewrite Hw1, Hqd1. }
  cbn [Places.at_place] in Hr2, Hd2, Hb2.
  assert (r2.1 = Ret tt) as Hret2 by (subst r2; unfold S3ToLocalTask.run; by rewrite Hrun2).
  assert (places r2.2
          = (Transfer.run
               (Places.target_on Places.Bucket (s3_path down +:+ "/" +:+ file_name down))
               (Places.target_on Places.Disk (local_path down +:+ "/" +:+ file_name down))
               (places r1.2)).2) as Hw2
    by (subst r2; unfold S3ToLocalTask.run; by rewrite Hrun2).
  split; [done|]. split; [done|]. rewrite Hw2, Hd2, Hb2, Hw1, Hd1, Hb1.
  split; [apply lookup_insert_eq|]. split; [|apply lookup_insert_eq].
  rewrite lookup_insert_ne; [done|]. congruence.
Qed.

Lemma upload_then_download_witness :
  let r1 := LocalToS3Task.run example_config example_upload
              {| places := example_world; self_client := None |} in
  let r2 := S3ToLocalTask.run example_config example_download
              {| places := places r1.2; self_client := None |} in
  r1.1 = Ret tt /\ r2.1 = Ret tt
  /\ DirectStore.files (Places.disk (places r2.2)) !! "/tmp/out/f.csv" = Some "a,b"
  /\ DirectStore.files (Places.disk (places r2.2)) !! "/tmp/in/f.csv" = Some "a,b"
  /\ DirectStore.files (Places.bucket (places r2.2)) !! "s3://bucket/data/f.csv"
     = Some "a,b".
Proof.
  exact (upload_then_download example_config "AKIA" "secret"
           example_upload example_download example_world None None "a,b"
           eq_refl eq_refl eq_refl eq_refl eq_refl eq_refl eq_refl eq_refl eq_refl).
Defined.

(** X13: once [self.output()] and the check of line 36 have returned,
    and as long as [output_target()] keeps returning, the only
    exception that leaves [run] is AttributeError: whatever
    [input_target()], [open], [read], [write] or [close] raise in the
    copy is replaced by the failure of the handler. *)
Theorem run_raises_only_attribute_error {World : Type}
    (input_target output_target : Transfer.IO World (Task.target World))
    (w w1 w2 : World) (t : Task.target World) (b : bool) (e : exn) :
  (forall w0, exists t0 w0', output_target w0 = (Ret t0, w0')) ->
  output_target w = (Ret t, w1) ->
  Task.exists_ t w1 = (Ret b, w2) ->
  (Task.run input_target output_target w).1 = Raise e ->
  e = AttributeError.
Proof.
  intros Hout Ht Hb. destruct b.
  - by rewrite (TaskFacts.task_run_skips input_target output_target w t w1 w2 Ht Hb).
  - rewrite (TaskFacts.task_run_copies input_target output_target w t w1 w2 Ht Hb).
    unfold Transfer.try_except.
    destruct (Task.copy_step input_target output_target w2) as [[[]|e'] w3];
      cbn; [discriminate|].
    destruct (Hout w3) as (t3 & w4 & Hout3).
    rewrite (TaskFacts.task_cleanup_raises output_target w3 t3 w4 Hout3).
    by intros [= <-].
Qed.

Lemma run_raises_only_attribute_error_witness :
  (Task.run
     (Transfer.ret (Task.of_target (DirectStore.target "/in/missing")))
     (Transfer.ret (Task.of_target (DirectStore.target "/out/f")))
     DirectStore.store_nearly_full).1 = Raise AttributeError
  /\ AttributeError = AttributeError.
Proof.
  split; [vm_compute; reflexivity|].
  apply (run_raises_only_attribute_error
           (Transfer.ret (Task.of_target (DirectStore.target "/in/missing")))
           (Transfer.ret (Task.of_target (DirectStore.target "/out/f")))
           DirectStore.store_nearly_full DirectStore.store_nearly_full
           DirectStore.store_nearly_full
           (Task.of_target (DirectStore.target "/out/f")) false AttributeError).
  - intros w0. eexists _, _. reflexivity.
  - reflexivity.
  - reflexivity.
  - vm_compute. reflexivity.
Defined.

(** X21: the check of line 36 stands outside the [try].  An exception
    raised by [output_target()] there, or by [exists()], leaves [run]
    as it is, with the world as the failed call left it; nothing is
    copied. *)
Theorem check_errors_leave_run {World : Type}
    (input_target output_target : Transfer.IO World (Task.target World))
    (w w' : World) (e : exn) :
  (output_target w = (Raise e, w')
   \/ exists t w1, output_target w = (Ret t, w1)
                   /\ Task.exists_ t w1 = (Raise e, w')) ->
  Task.run input_target output_target w = (Raise e, w').
Proof.
  intros [H|(t & w1 & Ht & He)].
  - by apply TaskFacts.run_check_raises_in_output.
  - by apply TaskFacts.run_check_raises_in_exists with t w1.
Qed.

Lemma check_errors_leave_run_witness :
  Task.run
    (Transfer.ret (Task.of_target (DirectStore.target "/in/f")))
    (Transfer.raise IOError)
    DirectStore.store_nearly_full
  = (Raise IOError, DirectStore.store_nearly_full).
Proof.
  apply (check_errors_leave_run
           (Transfer.ret (Task.of_target (DirectStore.target "/in/f")))
           (Transfer.raise IOError)
           DirectStore.store_nearly_full DirectStore.store_nearly_full IOError).
  left. reflexivity.
Defined.

Module CredentialFacts.

Lemma get_s3_client_raises config_get e :
  (get_s3_client config_get None).1 = Raise e ->
  get_s3_client config_get None = (Raise e, None).
Proof.
  unfold get_s3_client.
  destruct (config_get "s3" "aws_s3_access_key_id") as [key_id|e1];
    [|by intros [= <-]].
  destruct (config_get "s3" "aws_s3_secret_access_key") as [secret|e2];
    [discriminate|by intros [= <-]].
Qed.

End CredentialFacts.

(** X22: an upload without credentials.  When the client has not been
    made and reading the configuration raises, LocalToS3Task.run raises
    that exception from the check of line 36, before anything is
    opened: the media and the attribute stay as they were. *)
Theorem upload_without_credentials (config_get : string -> string -> outcome string)
    (self : transfer_task) (w : Places.world) (e : exn) :
  (get_s3_client config_get None).1 = Raise e ->
  LocalToS3Task.run config_get self {| places := w; self_client := None |}
  = (Raise e, {| places := w; self_client := None |}).
Proof.
  intros He. apply CredentialFacts.get_s3_client_raises in He.
  unfold LocalToS3Task.run. apply TaskFacts.run_check_raises_in_output.
  unfold LocalToS3Task.output_target, Transfer.bind, call_get_s3_client.
  cbn [self_client places]. by rewrite He.
Qed.

Lemma upload_without_credentials_witness :
  LocalToS3Task.run empty_config example_upload
    {| places := example_world; self_client := None |}
  = (Raise (PyException "No section %s" (JStr "s3")),
     {| places := example_world; self_client := None |}).
Proof.
  exact (upload_without_credentials empty_config example_upload example_world
           (PyException "No section %s" (JStr "s3")) eq_refl).
Defined.

(** X23: a download without credentials.  When the client has not been
    made and reading the configuration raises, S3ToLocalTask.run returns
    at once if the local file exists; otherwise the exception is raised
    by [input_target()] inside the [try], and what leaves [run] is the
    AttributeError of the handler.  Either way the media and the
    attribute stay as they were. *)
Theorem download_without_credentials (config_get : string -> string -> outcome string)
    (self : transfer_task) (w : Places.world) (e : exn) :
  (get_s3_client config_get None).1 = Raise e ->
  S3ToLocalTask.run config_get self {| places := w; self_client := None |}
  = (if bool_decide (is_Some (DirectStore.files (Places.disk w)
                                !! (local_path self +:+ "/" +:+ file_name self)))
     then Ret tt else Raise AttributeError,
     {| places := w; self_client := None |}).
Proof.
  intros He. apply CredentialFacts.get_s3_client_raises in He.
  unfold S3ToLocalTask.run.
  destruct (bool_decide (is_Some (DirectStore.files (Places.disk w)
                                    !! (local_path self +:+ "/" +:+ file_name self))))
    eqn:Hex.
  - apply TaskFacts.task_run_skips
      with (disk_target (local_path self +:+ "/" +:+ file_name self))
           {| places := w; self_client := None |}; [done|].
    cbn. by rewrite Hex.
  - rewrite (TaskFacts.task_run_copies _ _ _
               (disk_target (local_path self +:+ "/" +:+ file_name self))
               {| places := w; self_client := None |}
               {| places := w; self_client := None |});
      [|done|cbn; by rewrite Hex].
    unfold Transfer.try_except, Task.copy_step, S3ToLocalTask.input_target,
      Transfer.bind, call_get_s3_client.
    cbn [self_client places]. rewrite He.
    by apply TaskFacts.task_cleanup_raises
      with (disk_target (local_path self +:+ "/" +:+ file_name self)).
Qed.

Lemma download_without_credentials_witness :
  S3ToLocalTask.run empty_config example_download
    {| places := example_world; self_client := None |}
  = (Raise AttributeError, {| places := example_world; self_client := None |}).
Proof.
  exact (download_without_credentials empty_config example_download example_world
           (PyException "No section %s" (JStr "s3")) eq_refl).
Defined.
